(** * Smart Cities sentiment web app: a shallow embedding of [app.py] and
      [smartcities_analysis.py]

    The development follows the two Python modules function by function.

    - Python text is a [string] whose characters are code points below 256
      (Latin-1, which covers the Spanish alphabet used by the application);
      [lower], [split] and the regular expressions of [limpiar_texto] are
      written out on those code points.
    - Python floats are modelled by the rationals they denote ([Q]); the only
      float operations of the code are comparisons against the thresholds and
      the mean of a column.
    - Exceptions are explicit: a computation runs in the monad [M], which
      threads the [World] (the CSV file and the requests sent to the
      translator) and returns [Ok v] or [Raise e]; [try_except] is Python's
      [try: ... except Exception as e: ...].  [print] calls are not modelled.
    - The services the code imports (the Google translator, the VADER scorer,
      the clock) are Section variables. *)

From Stdlib Require Import String Ascii List Bool Arith ZArith QArith Lia.
From Stdlib Require Import Sorted Permutation.
Import ListNotations.

Local Open Scope string_scope.
Local Open Scope nat_scope.

(* ====================================================================== *)
(** ** Python values and text                                               *)
(* ====================================================================== *)

(** The values a caller can hand to the analysis functions. *)
Inductive pyval : Type :=
| PNone
| PBool (b : bool)
| PInt (z : Z)
| PStr (s : string).

(** [bool(v)]: the truth value used by [not v] and [v or ...]. *)
Definition truthy (v : pyval) : bool :=
  match v with
  | PNone => false
  | PBool b => b
  | PInt z => negb (Z.eqb z 0)
  | PStr s => negb (String.eqb s "")
  end.

(** [isinstance(v, str)]. *)
Definition isinstance_str (v : pyval) : bool :=
  match v with PStr _ => true | _ => false end.

(** [v or ''] as used by [analizar_sentimiento]. *)
Definition or_empty (v : pyval) : pyval :=
  if truthy v then v else PStr "".

Module Text.

Definition code (c : ascii) : nat := nat_of_ascii c.

(** [str.isspace] on code points below 256: TAB..CR, FS..US, SPACE, NEL and
    NBSP.  [str.split()] and the regex class [\s] use the same set. *)
Definition isspace (c : ascii) : bool :=
  let n := code c in
  ((9 <=? n) && (n <=? 13)) || ((28 <=? n) && (n <=? 32))
  || (n =? 133) || (n =? 160).

(** [str.lower] on one code point below 256: A-Z and the Latin-1 capital
    letters (all of 192..222 but the multiplication sign) move up by 32. *)
Definition lower_char (c : ascii) : ascii :=
  let n := code c in
  if ((65 <=? n) && (n <=? 90))
     || ((192 <=? n) && (n <=? 222) && negb (n =? 215))
  then ascii_of_nat (n + 32) else c.

Fixpoint lower (s : string) : string :=
  match s with
  | EmptyString => EmptyString
  | String c r => String (lower_char c) (lower r)
  end.

(** [s.startswith(p)]. *)
Fixpoint starts_with (p s : string) : bool :=
  match p, s with
  | EmptyString, _ => true
  | String a p', String b s' => Ascii.eqb a b && starts_with p' s'
  | String _ _, EmptyString => false
  end.

(** [p in s] on strings: [p] occurs as a contiguous substring of [s], that
    is, some suffix of [s] starts with [p]. *)
Fixpoint contains (p s : string) : bool :=
  starts_with p s
  || match s with
     | EmptyString => false
     | String _ r => contains p r
     end.

(** [s.split()]: the maximal runs of non-whitespace characters.  [cur] is
    the token being read, in reverse. *)
Fixpoint split_aux (cur : list ascii) (s : string) : list string :=
  let flush (k : list string) :=
    match cur with
    | [] => k
    | _ => string_of_list_ascii (rev cur) :: k
    end in
  match s with
  | EmptyString => flush []
  | String c r =>
      if isspace c then flush (split_aux [] r)
      else split_aux (c :: cur) r
  end.

Definition split (s : string) : list string := split_aux [] s.

(** [re.sub(r'[^a-z0-9áéíóúñü\s]', '', s)]: keep only the listed
    characters. *)
Definition kept (c : ascii) : bool :=
  let n := code c in
  ((97 <=? n) && (n <=? 122)) || ((48 <=? n) && (n <=? 57))
  || existsb (Nat.eqb n) [225; 233; 237; 243; 250; 241; 252]
  || isspace c.

Fixpoint keep_only (f : ascii -> bool) (s : string) : string :=
  match s with
  | EmptyString => EmptyString
  | String c r => if f c then String c (keep_only f r) else keep_only f r
  end.

(** [s.strip()]: drop the whitespace at both ends. *)
Fixpoint lstrip (s : string) : string :=
  match s with
  | EmptyString => EmptyString
  | String c r => if isspace c then lstrip r else s
  end.

Definition rev_string (s : string) : string :=
  string_of_list_ascii (rev (list_ascii_of_string s)).

Definition strip (s : string) : string :=
  rev_string (lstrip (rev_string (lstrip s))).

(** [re.sub(r'\s+', ' ', s)]: every maximal run of whitespace becomes one
    space.  [in_run] tells that the previous character was whitespace. *)
Fixpoint sub_ws_runs (in_run : bool) (s : string) : string :=
  match s with
  | EmptyString => EmptyString
  | String c r =>
      if isspace c
      then if in_run then sub_ws_runs true r
           else String " " (sub_ws_runs true r)
      else String c (sub_ws_runs false r)
  end.

(** [chr(n)] as a one-character string, for the accented letters. *)
Definition chr (n : nat) : string := String (ascii_of_nat n) "".

End Text.

(* ====================================================================== *)
(** ** Exceptions and the world                                             *)
(* ====================================================================== *)

(** The outcome of a Python call: a value, or an exception (its message). *)
Inductive exc (A : Type) : Type :=
| Ok (a : A)
| Raise (e : string).
Arguments Ok {A} a.
Arguments Raise {A} e.

(** One row of [data/comentarios.csv] as [app.py] writes it. *)
Record Fila : Type := mkFila {
  col_id : Z;
  col_fecha : string;
  col_nombre : string;
  col_email : string;
  col_comentario : pyval;
  col_sentimiento : string;
  col_compound : Q;
  col_positivo : Q;
  col_negativo : Q;
  col_neutro : Q
}.

(** A pandas [DataFrame]: its column names and its rows.  [pd.DataFrame()]
    has neither. *)
Record DataFrame : Type := mkDF {
  columns : list string;
  filas : list Fila
}.

(** The file [data/comentarios.csv]: missing, of size zero, with a content
    [pd.read_csv] cannot parse (only blank lines, bytes that are not UTF-8,
    ...), or holding what [to_csv] wrote for a frame.  Reading the latter
    back gives that frame: the integers of [id], the labels of [sentimiento]
    and the floats of [compound] survive the round trip through the CSV
    text. *)
Inductive Disk : Type :=
| NoFile
| EmptyFile
| Corrupt
| Csv (df : DataFrame).

Record World : Type := mkWorld {
  disk : Disk;
  (** whether the file can be opened for writing; [to_csv] raises, and
      writes nothing, when it cannot *)
  writable : bool;
  (** the texts handed to the translator so far, most recent first *)
  translated : list string
}.

Definition M (A : Type) : Type := World -> exc A * World.

Definition ret {A} (a : A) : M A := fun w => (Ok a, w).

Definition bind {A B} (m : M A) (k : A -> M B) : M B :=
  fun w => match m w with
           | (Ok a, w') => k a w'
           | (Raise e, w') => (Raise e, w')
           end.

Definition raise {A} (e : string) : M A := fun w => (Raise e, w).

(** [try: body  except Exception as e: handler e]. *)
Definition try_except {A} (body : M A) (handler : string -> M A) : M A :=
  fun w => match body w with
           | (Ok a, w') => (Ok a, w')
           | (Raise e, w') => handler e w'
           end.

Declare Scope py_scope.
Delimit Scope py_scope with py.
Notation "x <- m ;; k" := (bind m (fun x => k))
  (at level 61, m at next level, right associativity) : py_scope.
Notation "m ;;; k" := (bind m (fun _ => k))
  (at level 61, right associativity) : py_scope.
Local Open Scope py_scope.

(* ====================================================================== *)
(** ** Data shared by the two modules                                       *)
(* ====================================================================== *)

(** What [analyzer.polarity_scores] returns. *)
Record Scores : Type := mkScores {
  s_neg : Q;
  s_neu : Q;
  s_pos : Q;
  s_compound : Q
}.

(** The dictionary [analizar_sentimiento] returns. *)
Record Resultado : Type := mkResultado {
  comentario_original : pyval;
  comentario_traducido : pyval;
  neg : Q;
  neu : Q;
  pos : Q;
  compound : Q;
  sentimiento : string
}.

(** The dictionary [obtener_estadisticas] returns ([status] is [""] in the
    module that has no such key). *)
Record Stats : Type := mkStats {
  total : nat;
  positivos : nat;
  negativos : nat;
  neutros : nat;
  promedio_compound : Q;
  status : string
}.

(** What a Flask view returns. *)
Inductive Response : Type :=
| ErrorPage (message : string) (error_code : nat)
| ResultPage (comentario nombre : string) (r : Resultado)
| Redirect (endpoint : string).

Definition palabras_es : list string :=
  ["el"; "la"; "los"; "las"; "es"; "en"; "y"; "de"; "que"; "se"].

(** ['An\u00f3nimo']. *)
Definition Anonimo : string := "An" ++ Text.chr 243 ++ "nimo".

(** *** The file system *)

Definition path_exists (d : Disk) : bool :=
  match d with NoFile => false | _ => true end.

(** [os.path.getsize(csv_path) > 0] for an existing file. *)
Definition getsize_pos (d : Disk) : bool :=
  match d with NoFile | EmptyFile => false | _ => true end.

Definition get_disk : M Disk := fun w => (Ok (disk w), w).

(** [pd.read_csv(csv_path, encoding='utf-8')]. *)
Definition read_csv : M DataFrame :=
  fun w => match disk w with
           | NoFile => (Raise "FileNotFoundError", w)
           | EmptyFile => (Raise "EmptyDataError", w)
           | Corrupt => (Raise "ParserError", w)
           | Csv df => (Ok df, w)
           end.

(** [df.to_csv('data/comentarios.csv', index=False, encoding='utf-8')]. *)
Definition to_csv (df : DataFrame) : M unit :=
  fun w => if writable w
           then (Ok tt, mkWorld (Csv df) (writable w) (translated w))
           else (Raise "PermissionError", w).

(** *** pandas operations *)

(** [df.empty]: one of the two axes has length zero. *)
Definition empty (df : DataFrame) : bool :=
  match filas df, columns df with
  | [], _ => true
  | _, [] => true
  | _, _ => false
  end.

(** [name in df.columns]. *)
Definition has_column (name : string) (df : DataFrame) : bool :=
  existsb (String.eqb name) (columns df).

(** [Series.max()] of an integer column (only called on a non-empty one). *)
Definition Series_max (l : list Z) : Z :=
  match l with
  | [] => 0%Z
  | x :: t => fold_left Z.max t x
  end.

(** The sum of two [numpy.int64] values: the exact sum brought back into
    the range from -2^63 to 2^63 - 1 (numpy wraps around, with a warning). *)
Definition int64_wrap (z : Z) : Z :=
  ((z + 9223372036854775808) mod 18446744073709551616
   - 9223372036854775808)%Z.

(** [Series.mean()] of a float column. *)
Definition Series_mean (l : list Q) : Q :=
  (fold_left Qplus l 0 / inject_Z (Z.of_nat (length l)))%Q.

(** [int(df['sentimiento'].value_counts().get(label, 0))]. *)
Definition value_count (label : string) (df : DataFrame) : nat :=
  length (filter (fun r => String.eqb (col_sentimiento r) label) (filas df)).

(** [df[df['id'] != id]]. *)
Definition drop_id (id : Z) (df : DataFrame) : DataFrame :=
  mkDF (columns df) (filter (fun r => negb (Z.eqb (col_id r) id)) (filas df)).

(* ====================================================================== *)
(** ** app.py                                                               *)
(* ====================================================================== *)

Module App.

(** The columns of the empty frame [cargar_dataset] builds; they are also
    the keys of every row dictionary of this module. *)
Definition schema : list string :=
  ["id"; "fecha"; "nombre"; "email"; "comentario";
   "sentimiento"; "compound"; "positivo"; "negativo"; "neutro"].

(** [clasificar_sentimiento(compound)]. *)
Definition clasificar_sentimiento (compound : Q) : string :=
  if Qle_bool (5 # 100) compound then "Positivo"
  else if Qle_bool compound (- (5 # 100)) then "Negativo"
  else "Neutro".

(** The seed comments of [inicializar_dataset]. *)
Definition ejemplos : list (string * string) :=
  let a := Text.chr 225 in let e := Text.chr 233 in
  let i := Text.chr 237 in let o := Text.chr 243 in
  let u := Text.chr 250 in
  [ ("El transporte p" ++ u ++ "blico es muy lento en horas punta", "Carlos");
    ("Los buses nuevos han mejorado bastante el servicio", "Ana");
    ("Siempre hay mucha demora y desorden en los paraderos", "Luis");
    ("Me gusta que ahora las unidades est" ++ e ++ "n m" ++ a ++ "s limpias",
      "Mar" ++ i ++ "a");
    ("El pasaje es caro para la calidad del servicio", "Pedro");
    ("Excelente servicio en la nueva l" ++ i ++ "nea de metro", "Laura");
    ("Los conductores son muy amables y profesionales", "Javier");
    ("Falta m" ++ a ++ "s frecuencia en los horarios nocturnos",
      "Sof" ++ i ++ "a");
    ("La aplicaci" ++ o ++ "n m" ++ o ++ "vil funciona muy bien", "David");
    ("Me siento seguro viajando en el transporte p" ++ u ++ "blico", "Elena") ].

Section Services.

(** [GoogleTranslator(source='es', target='en').translate]: the answer of
    the service for a text, or the exception it raises. *)
Variable translate : string -> exc string.
(** [analyzer.polarity_scores]. *)
Variable polarity_scores : string -> exc Scores.
(** [datetime.now().strftime("%Y-%m-%d %H:%M:%S")] during the call. *)
Variable now : string.

(** The call to the translator: the request is recorded in the world. *)
Definition GoogleTranslator_translate (texto : string) : M string :=
  fun w => (translate texto,
            mkWorld (disk w) (writable w) (texto :: translated w)).

(** [analyzer.polarity_scores(v)]; the scorer iterates over the words of a
    string and raises on anything else. *)
Definition analyzer_polarity_scores (v : pyval) : M Scores :=
  match v with
  | PStr t => fun w => (polarity_scores t, w)
  | _ => raise "AttributeError"
  end.

(** [traducir_es_en(texto)], lines 63-80. *)
Definition traducir_es_en (texto : pyval) : M pyval :=
  try_except
    (if negb (truthy texto) || negb (isinstance_str texto) then ret texto
     else
       match texto with
       | PStr s =>
           let texto_lower := Text.lower s in
           let tiene_espanol :=
             existsb (fun palabra => Text.contains palabra texto_lower)
                     palabras_es in
           if tiene_espanol && (1 <? length (Text.split s))
           then r <- GoogleTranslator_translate s ;; ret (PStr r)
           else ret texto
       | _ => ret texto
       end)
    (fun _ => ret texto).

(** The neutral dictionary of the two fallback branches. *)
Definition neutral (original traducido : pyval) : Resultado :=
  mkResultado original traducido 0 1 0 0 "Neutro".

(** [analizar_sentimiento(comentario)], lines 91-128. *)
Definition analizar_sentimiento (comentario : pyval) : M Resultado :=
  try_except
    (if negb (truthy comentario) || negb (isinstance_str comentario)
     then ret (neutral (or_empty comentario) (or_empty comentario))
     else
       comentario_trad <- traducir_es_en comentario ;;
       scores <- analyzer_polarity_scores comentario_trad ;;
       let sentimiento := clasificar_sentimiento (s_compound scores) in
       ret (mkResultado comentario comentario_trad
                        (s_neg scores) (s_neu scores) (s_pos scores)
                        (s_compound scores) sentimiento))
    (fun _ => ret (neutral comentario comentario)).

(** [cargar_dataset()], lines 130-146. *)
Definition cargar_dataset : M DataFrame :=
  try_except
    (d <- get_disk ;;
     if path_exists d && getsize_pos d
     then df <- read_csv ;; ret df
     else ret (mkDF schema []))
    (fun _ => ret (mkDF [] [])).

(** One row dictionary, as both [inicializar_dataset] and
    [agregar_comentario] build it. *)
Definition fila_de (id : Z) (nombre email : string) (comentario : pyval)
           (resultado : Resultado) : Fila :=
  mkFila id now nombre email comentario
         (sentimiento resultado) (compound resultado)
         (pos resultado) (neg resultado) (neu resultado).

(** The loop of [inicializar_dataset]; [i] is the index [enumerate]
    gives. *)
Fixpoint construir_datos (i : nat) (l : list (string * string))
  : M (list Fila) :=
  match l with
  | [] => ret []
  | (comentario, nombre) :: rest =>
      resultado <- analizar_sentimiento (PStr comentario) ;;
      let fila :=
        fila_de (Z.of_nat i + 1) nombre
                (Text.lower nombre ++ "@ejemplo.com")
                (PStr comentario) resultado in
      datos <- construir_datos (S i) rest ;;
      ret (fila :: datos)
  end.

(** [pd.DataFrame(datos)] for a list of row dictionaries. *)
Definition DataFrame_of (datos : list Fila) : DataFrame :=
  match datos with
  | [] => mkDF [] []
  | _ => mkDF schema datos
  end.

(** [inicializar_dataset()], lines 148-187. *)
Definition inicializar_dataset : M unit :=
  d <- get_disk ;;
  if negb (path_exists d) || negb (getsize_pos d)
  then datos <- construir_datos 0 ejemplos ;;
       to_csv (DataFrame_of datos)
  else ret tt.

(** [pd.concat([df, pd.DataFrame([nueva_fila])], ignore_index=True)]: the
    columns of [df], then those of the new row [df] does not have. *)
Definition concat (df : DataFrame) (nueva_fila : Fila) : DataFrame :=
  mkDF (columns df
          ++ filter (fun c => negb (has_column c df)) schema)
       (filas df ++ [nueva_fila]).

(** [df['id'].max() + 1 if not df.empty and 'id' in df.columns else 1],
    with the addition written in [Z].  The column is [int64] in pandas, and
    [nuevo_id_int64] below is the same expression with numpy's addition; the
    two agree on every table whose ids lie from -2^63 up to, but not
    including, 2^63 - 1 (lemma [nuevo_id_int64_agrees]), which is what the
    properties stated for an arbitrary table assume.  The tables the
    application builds from an empty store hold the ids it numbered from 1
    on. *)
Definition nuevo_id (df : DataFrame) : Z :=
  if negb (empty df) && has_column "id" df
  then (Series_max (map col_id (filas df)) + 1)%Z
  else 1%Z.

(** The same expression as numpy evaluates it on the [int64] column. *)
Definition nuevo_id_int64 (df : DataFrame) : Z :=
  if negb (empty df) && has_column "id" df
  then int64_wrap (Series_max (map col_id (filas df)) + 1)
  else 1%Z.

(** [agregar_comentario(comentario, nombre, email)], lines 189-224. *)
Definition agregar_comentario (comentario : pyval) (nombre email : string)
  : M (bool * option Resultado) :=
  try_except
    (resultado <- analizar_sentimiento comentario ;;
     df <- cargar_dataset ;;
     let nueva_fila :=
       fila_de (nuevo_id df)
               (if String.eqb nombre "" then Anonimo else nombre)
               email comentario resultado in
     let df := concat df nueva_fila in
     to_csv df ;;;
     ret (true, Some resultado))
    (fun _ => ret (false, None)).

(** [obtener_estadisticas()], lines 226-245.  [df['sentimiento']] raises
    [KeyError] on a frame without that column. *)
Definition obtener_estadisticas : M Stats :=
  df <- cargar_dataset ;;
  if empty df then ret (mkStats 0 0 0 0 0 "empty")
  else
    if negb (has_column "sentimiento" df) then raise "KeyError"
    else
      ret (mkStats (length (filas df))
                   (value_count "Positivo" df)
                   (value_count "Negativo" df)
                   (value_count "Neutro" df)
                   (if has_column "compound" df
                    then Series_mean (map col_compound (filas df))
                    else 0)
                   "ok").

(** The three fields of the form, [None] when the field is absent. *)
Record Form : Type := mkForm {
  form_comentario : option string;
  form_nombre : option string;
  form_email : option string
}.

Definition form_get (field : option string) (default : string) : string :=
  match field with Some v => v | None => default end.

(** [submit_comment()], lines 272-312. *)
Definition submit_comment (form : Form) : M Response :=
  try_except
    (let comentario := Text.strip (form_get (form_comentario form) "") in
     let nombre := Text.strip (form_get (form_nombre form) Anonimo) in
     let email := Text.strip (form_get (form_email form) "") in
     if String.eqb comentario ""
     then ret (ErrorPage "Por favor, ingresa un comentario" 400)
     else if 1000 <? String.length comentario
     then ret (ErrorPage ("El comentario es demasiado largo (m"
                            ++ Text.chr 225 ++ "ximo 1000 caracteres)") 400)
     else
       sr <- agregar_comentario (PStr comentario) nombre email ;;
       match sr with
       | (true, Some resultado) =>
           ret (ResultPage comentario nombre resultado)
       | (true, None) => raise "TypeError"
       | (false, _) => ret (ErrorPage "Error al guardar el comentario" 500)
       end)
    (fun e => ret (ErrorPage ("Error: " ++ e) 500)).

(** [delete_comment(id)], lines 453-469; [admin_logged_in] is
    [session.get('admin_logged_in')]. *)
Definition delete_comment (admin_logged_in : bool) (id : Z) : M Response :=
  if negb admin_logged_in then ret (Redirect "admin_login")
  else
    try_except
      (df <- cargar_dataset ;;
       (if negb (empty df) && has_column "id" df
        then to_csv (drop_id id df)
        else ret tt) ;;;
       ret (Redirect "admin_dashboard"))
      (fun e => ret (ErrorPage ("Error al eliminar: " ++ e) 500)).

End Services.

End App.

(* ====================================================================== *)
(** ** smartcities_analysis.py                                              *)
(* ====================================================================== *)

Module Analysis.

(** The columns of the empty frame this module's [cargar_dataset] builds. *)
Definition schema : list string :=
  ["fecha"; "nombre"; "email"; "comentario"; "comentario_traducido";
   "neg"; "neu"; "pos"; "compound"; "sentimiento"].

(** [clasificar_sentimiento(compound)], lines 72-79. *)
Definition clasificar_sentimiento (compound : Q) : string :=
  if Qle_bool (5 # 100) compound then "Positivo"
  else if Qle_bool compound (- (5 # 100)) then "Negativo"
  else "Neutro".

(** [limpiar_texto(texto)], lines 61-70. *)
Definition limpiar_texto (texto : pyval) : string :=
  if negb (truthy texto) || negb (isinstance_str texto) then ""
  else
    match texto with
    | PStr s =>
        let texto := Text.lower s in
        let texto := Text.keep_only Text.kept texto in
        Text.strip (Text.sub_ws_runs false texto)
    | _ => ""
    end.

Section Services.

Variable translate : string -> exc string.
Variable polarity_scores : string -> exc Scores.

(** [traducir_es_en(texto)], lines 44-59: no token count here. *)
Definition traducir_es_en (texto : pyval) : M pyval :=
  try_except
    (if negb (truthy texto) || negb (isinstance_str texto) then ret texto
     else
       match texto with
       | PStr s =>
           let tiene_espanol :=
             existsb (fun palabra => Text.contains palabra (Text.lower s))
                     palabras_es in
           if tiene_espanol
           then r <- App.GoogleTranslator_translate translate s ;;
                ret (PStr r)
           else ret texto
       | _ => ret texto
       end)
    (fun _ => ret texto).

(** [analizar_sentimiento(comentario)], lines 81-121. *)
Definition analizar_sentimiento (comentario : pyval) : M Resultado :=
  try_except
    (if negb (truthy comentario) || negb (isinstance_str comentario)
     then raise ("Comentario inv" ++ Text.chr 225 ++ "lido")
     else
       comentario_trad <- traducir_es_en comentario ;;
       let comentario_limpio := limpiar_texto comentario_trad in
       scores <- (fun w => (polarity_scores comentario_limpio, w)) ;;
       let sentimiento := clasificar_sentimiento (s_compound scores) in
       ret (mkResultado comentario comentario_trad
                        (s_neg scores) (s_neu scores) (s_pos scores)
                        (s_compound scores) sentimiento))
    (fun _ => ret (mkResultado comentario comentario 0 1 0 0 "Neutro")).

(** [cargar_dataset()], lines 123-143: the file is read whenever it
    exists; [pd.to_numeric] leaves the numeric columns as they are. *)
Definition cargar_dataset : M DataFrame :=
  try_except
    (d <- get_disk ;;
     if path_exists d
     then df <- read_csv ;; ret df
     else ret (mkDF schema []))
    (fun _ => ret (mkDF [] [])).

(** [obtener_estadisticas()], lines 214-235. *)
Definition obtener_estadisticas : M Stats :=
  df <- cargar_dataset ;;
  if empty df then ret (mkStats 0 0 0 0 0 "")
  else
    if negb (has_column "sentimiento" df) then raise "KeyError"
    else
      ret (mkStats (length (filas df))
                   (value_count "Positivo" df)
                   (value_count "Negativo" df)
                   (value_count "Neutro" df)
                   (if has_column "compound" df
                    then Series_mean (map col_compound (filas df))
                    else 0)
                   "").

End Services.

End Analysis.

(* ---------------------------------------------------------------------- *)
(** *** Sample runs                                                         *)
(* ---------------------------------------------------------------------- *)

Module Samples.

(** A translator that is down, and one that answers. *)
Definition translate_down : string -> exc string :=
  fun _ => Raise "ConnectionError".
Definition translate_up : string -> exc string :=
  fun s => Ok ("[en] " ++ s).

(** A scorer that looks only at exclamation marks: each one moves the
    compound score up by a tenth, as punctuation emphasis does in VADER. *)
Fixpoint bangs (s : string) : nat :=
  match s with
  | EmptyString => 0
  | String c r => (if Ascii.eqb c "!" then 1 else 0) + bangs r
  end.
Definition scorer_bang : string -> exc Scores :=
  fun s => Ok (mkScores 0 1 0 (inject_Z (Z.of_nat (bangs s)) / 10)).

Definition scorer_neutral : string -> exc Scores :=
  fun _ => Ok (mkScores 0 1 0 0).
Definition scorer_broken : string -> exc Scores :=
  fun _ => Raise "RuntimeError".

Definition w0 : World := mkWorld NoFile true [].

(** A reading of the clock. *)
Definition t0 : string := "2024-01-02 09:30:00".

End Samples.

(* ====================================================================== *)
(** ** Vocabulary of the specification                                      *)
(* ====================================================================== *)

(** The three categories of the data model. *)
Definition labels : list string := ["Positivo"; "Negativo"; "Neutro"].

(** The values of the column [id]. *)
Definition ids (df : DataFrame) : list Z := map col_id (filas df).

(** An id for which [id + 1] is still an [int64]: from -2^63 up to, but not
    including, 2^63 - 1. *)
Definition id_in_range (i : Z) : Prop :=
  (-9223372036854775808 <= i < 9223372036854775807)%Z.

(** A frame that has rows has the columns of the row dictionaries. *)
Definition well_formed (df : DataFrame) : Prop :=
  filas df <> [] -> columns df = App.schema.

(** The scores and the label of a result, the part the two analysis entry
    points are compared on. *)
Definition scores_of (r : Resultado) : Q * Q * Q * Q * string :=
  (neg r, neu r, pos r, compound r, sentimiento r).

(** The language check as the specification words it: some lowercase
    whitespace-delimited token is a stop word, and there is more than one
    token. *)
Definition is_spanish_by_tokens (s : string) : bool :=
  existsb (fun token => existsb (String.eqb token) palabras_es)
          (Text.split (Text.lower s))
  && (1 <? length (Text.split s)).

(** The language check as [app.py] computes it. *)
Definition tiene_espanol (s : string) : bool :=
  existsb (fun palabra => Text.contains palabra (Text.lower s)) palabras_es.

(** The arithmetic mean of a list of rationals: their sum over their
    number. *)
Definition sum_Q (l : list Q) : Q := fold_right Qplus 0%Q l.
Definition arithmetic_mean (l : list Q) : Q :=
  (sum_Q l / inject_Z (Z.of_nat (length l)))%Q.

(** The shape both copies of [obtener_estadisticas] share, given the frame
    their [cargar_dataset] returned. *)
Definition stats_as_specified (df : DataFrame) (run : exc Stats) : Prop :=
  (empty df = true ->
   exists st, run = Ok st /\ total st = 0 /\ positivos st = 0
              /\ negativos st = 0 /\ neutros st = 0
              /\ promedio_compound st = 0%Q)
  /\ (empty df = false ->
      has_column "sentimiento" df = true ->
      has_column "compound" df = true ->
      exists st, run = Ok st
                 /\ total st = length (filas df)
                 /\ (promedio_compound st
                     == arithmetic_mean (map col_compound (filas df)))%Q
                 /\ (promedio_compound st * inject_Z (Z.of_nat (total st))
                     == sum_Q (map col_compound (filas df)))%Q).

(** The tables the application can produce: it starts without a file (or
    with an empty one), and each step is one of the writing operations of
    [app.py], run with whatever the services answer at that moment; between
    two steps the file may become read-only or writable again. *)
Inductive reachable : World -> Prop :=
| reach_no_file : forall wr, reachable (mkWorld NoFile wr [])
| reach_empty_file : forall wr, reachable (mkWorld EmptyFile wr [])
| reach_chmod : forall w wr,
    reachable w -> reachable (mkWorld (disk w) wr (translated w))
| reach_inicializar : forall translate polarity_scores now w,
    reachable w ->
    reachable (snd (App.inicializar_dataset translate polarity_scores now w))
| reach_agregar : forall translate polarity_scores now comentario nombre email w,
    reachable w ->
    reachable (snd (App.agregar_comentario translate polarity_scores now
                                           comentario nombre email w))
| reach_delete : forall admin id w,
    reachable w ->
    reachable (snd (App.delete_comment admin id w)).

(** The frame [cargar_dataset] of [app.py] returns for each state of the file
    (lemma [cargar_dataset_run] below). *)
Definition loaded (d : Disk) : DataFrame :=
  match d with
  | NoFile | EmptyFile => mkDF App.schema []
  | Corrupt => mkDF [] []
  | Csv df => df
  end.

(** What holds of every file the application writes. *)
Definition disk_ok (d : Disk) : Prop :=
  match d with
  | NoFile | EmptyFile => True
  | Corrupt => False
  | Csv df =>
      columns df = App.schema
      /\ Forall (fun r => In (col_sentimiento r) labels) (filas df)
      /\ NoDup (ids df)
  end.

Module Worlds.
Import Samples.

Definition fila0 (id : Z) (label : string) (c : Q) : Fila :=
  mkFila id "2024-01-01 10:00:00" "Ana" "" (PStr "bus") label c 0 0 1.

(** A store with the ids 1 and 2. *)
Definition w12 : World :=
  mkWorld (Csv (mkDF App.schema
                     [fila0 1 "Positivo" (6 # 10); fila0 2 "Neutro" 0]))
          true [].

Definition w12_readonly : World := mkWorld (disk w12) false [].

Definition form_of (comentario : string) : App.Form :=
  App.mkForm (Some comentario) (Some "Ana") None.

(** The store with the ids 1 and 2 after the administrator deleted the
    row 2, and after one more comment came in. *)
Definition w12_deleted : World := snd (App.delete_comment true 2 w12).
Definition w12_appended : World :=
  snd (App.agregar_comentario translate_up scorer_neutral t0
                              (PStr "new comment") "Eva" "" w12_deleted).


(** The seeds (analysed while the scorer was down) and one comment. *)
Definition w_seeded : World :=
  snd (App.agregar_comentario translate_down scorer_bang t0
         (PStr "great service!") "" ""
         (snd (App.inicializar_dataset translate_up scorer_broken t0 w0))).

End Worlds.

(* ====================================================================== *)
(** ** The views of app.py                                                  *)
(* ====================================================================== *)

Module Views.

(** [ADMIN_PASSWORD], line 41. *)
Definition ADMIN_PASSWORD : string := "admin123".

(** The two keys the application keeps in the Flask session; [None] is a
    key that is not there. *)
Record Session : Type := mkSession {
  admin_logged_in : option bool;
  admin_login_time : option string
}.

(** [session.get('admin_logged_in')] as a condition. *)
Definition logged_in (s : Session) : bool :=
  match admin_logged_in s with Some b => b | None => false end.

(** The session of a browser that never logged in. *)
Definition no_session : Session := mkSession None None.

Inductive Method : Type := GET | POST.

(** What the views other than [submit_comment] and [delete_comment] render:
    the name of the template stands for the page, with the values handed to
    it. *)
Inductive View : Type :=
| Basic (r : Response)
| IndexPage (total positivos negativos neutros : nat)
| SobrePage
| Json (st : Stats)
| LoginPage (error : option string) (code : nat)
| Dashboard (plot_url : option string) (total_comentarios : nat)
            (stats : list (string * nat))
            (ultimos_comentarios df_preview : list Fila)
| Download (mimetype download_name : string) (df : DataFrame).

(** What the views take from the libraries and from the clock. *)
Record Services : Type := mkServices {
  translate : string -> exc string;
  polarity_scores : string -> exc Scores;
  (** [datetime.now().strftime("%Y-%m-%d %H:%M:%S")] *)
  now : string;
  (** [datetime.now().isoformat()] *)
  now_iso : string;
  (** [datetime.now().strftime("%Y%m%d")] *)
  today : string;
  (** [Series.value_counts()] of the column [sentimiento] *)
  value_counts : list string -> list (string * nat);
  (** the matplotlib figure of the counts, as base64 text; it may raise *)
  plot : list (string * nat) -> exc string;
  (** [df.sort_values('fecha', ascending=False)] on the rows *)
  sort_values_fecha_desc : list Fila -> list Fila;
  (** [df.to_excel] through openpyxl; it may raise *)
  to_excel : DataFrame -> exc unit
}.

(** [index()], lines 251-260. *)
Definition index : M View :=
  stats <- App.obtener_estadisticas ;;
  ret (IndexPage (total stats) (positivos stats) (negativos stats)
                 (neutros stats)).

(** [sobre()], lines 262-265. *)
Definition sobre : M View := ret SobrePage.

(** [get_stats()], lines 267-270. *)
Definition get_stats : M View :=
  stats <- App.obtener_estadisticas ;; ret (Json stats).

(** [admin_login()], lines 314-326; [password] is
    [request.form.get('password')]. *)
Definition admin_login (sv : Services) (method : Method)
           (password : option string) (s : Session) : View * Session :=
  match method with
  | POST =>
      if match password with
         | Some p => String.eqb p ADMIN_PASSWORD
         | None => false
         end
      then (Basic (Redirect "admin_dashboard"),
            mkSession (Some true) (Some (now_iso sv)))
      else (LoginPage (Some ("Contrase" ++ Text.chr 241 ++ "a incorrecta")) 401,
            s)
  | GET => (LoginPage None 200, s)
  end.

(** [admin_logout()], lines 471-476. *)
Definition admin_logout (s : Session) : View * Session :=
  (Basic (Redirect "index"), mkSession None None).

(** [df[name]] on a frame: [KeyError] without that column. *)
Definition column {A} (name : string) (f : Fila -> A) (df : DataFrame)
  : M (list A) :=
  if has_column name df then ret (map f (filas df)) else raise "KeyError".

(** [admin_dashboard()], lines 328-409. *)
Definition admin_dashboard (sv : Services) (s : Session) : M View :=
  if negb (logged_in s) then ret (Basic (Redirect "admin_login"))
  else
    try_except
      (df <- App.cargar_dataset ;;
       if empty df then ret (Dashboard None 0 [] [] [])
       else
         sentimientos <- column "sentimiento" col_sentimiento df ;;
         let stats := value_counts sv sentimientos in
         plot_url <- (if 0 <? length (filas df)
                      then fun w => (match plot sv stats with
                                     | Ok png => Ok (Some png)
                                     | Raise e => Raise e
                                     end, w)
                      else ret None) ;;
         _ <- column "fecha" col_fecha df ;;
         let df_sorted := sort_values_fecha_desc sv (filas df) in
         ret (Dashboard plot_url (length (filas df)) stats
                        (firstn 10 df_sorted) (firstn 20 df_sorted)))
      (fun e => ret (Basic (ErrorPage ("Error en dashboard: " ++ e) 500))).

(** [export_data(format)], lines 411-451. *)
Definition export_data (sv : Services) (s : Session) (format : string)
  : M View :=
  if negb (logged_in s) then ret (Basic (Redirect "admin_login"))
  else
    try_except
      (df <- App.cargar_dataset ;;
       if String.eqb format "csv"
       then ret (Download "text/csv"
                          ("comentarios_smartcities_" ++ today sv ++ ".csv")
                          df)
       else if String.eqb format "excel"
       then (fun w => (to_excel sv df, w)) ;;;
            ret (Download
                   "application/vnd.openxmlformats-officedocument.spreadsheetml.sheet"
                   ("comentarios_smartcities_" ++ today sv ++ ".xlsx") df)
       else ret (Basic (ErrorPage "Formato no soportado" 400)))
      (fun e => ret (Basic (ErrorPage ("Error al exportar: " ++ e) 500))).

(** One request of a browser. *)
Inductive Request : Type :=
| ReqIndex
| ReqSobre
| ReqStats
| ReqSubmit (form : App.Form)
| ReqLogin (method : Method) (password : option string)
| ReqDashboard
| ReqExport (format : string)
| ReqDelete (id : Z)
| ReqLogout.

(** The application serving one request: the view the route returns (or the
    exception that leaves it), the session and the world afterwards. *)
Definition handle (sv : Services) (req : Request) (s : Session) (w : World)
  : exc View * Session * World :=
  let with_session (out : exc View * World) := (fst out, s, snd out) in
  let basic (out : exc Response * World) :=
    (match fst out with Ok r => Ok (Basic r) | Raise e => Raise e end,
     s, snd out) in
  match req with
  | ReqIndex => with_session (index w)
  | ReqSobre => with_session (sobre w)
  | ReqStats => with_session (get_stats w)
  | ReqSubmit form =>
      basic (App.submit_comment (translate sv) (polarity_scores sv) (now sv)
                                form w)
  | ReqLogin method password =>
      let (v, s') := admin_login sv method password s in (Ok v, s', w)
  | ReqDashboard => with_session (admin_dashboard sv s w)
  | ReqExport format => with_session (export_data sv s format w)
  | ReqDelete id => basic (App.delete_comment (logged_in s) id w)
  | ReqLogout => let (v, s') := admin_logout s in (Ok v, s', w)
  end.

(** A browsing history: each request with what the services answer while it
    is served. *)
Fixpoint serve (history : list (Services * Request)) (s : Session) (w : World)
  : Session * World :=
  match history with
  | [] => (s, w)
  | (sv, req) :: rest =>
      let '(_, s', w') := handle sv req s w in serve rest s' w'
  end.

(** The request that presents the administrator's password. *)
Definition is_admin_login (req : Request) : bool :=
  match req with
  | ReqLogin POST (Some p) => String.eqb p ADMIN_PASSWORD
  | _ => false
  end.

End Views.

(* ====================================================================== *)
(** ** Vocabulary of the further properties                                 *)
(* ====================================================================== *)

(** What a run of either analysis leaves behind: the file and its
    permissions as they were, and at most one request to the translator,
    for the comment itself. *)
Definition analysis_footprint (comentario : pyval) (w w' : World) : Prop :=
  disk w' = disk w /\ writable w' = writable w
  /\ (translated w' = translated w
      \/ exists s, comentario = PStr s /\ translated w' = s :: translated w).

(** The table [cargar_dataset] of [app.py] returns in a world. *)
Definition table (w : World) : list Fila := filas (loaded (disk w)).

(** One call of [agregar_comentario]: the services of the moment and the
    three arguments. *)
Record Submission : Type := mkSubmission {
  sub_translate : string -> exc string;
  sub_polarity_scores : string -> exc Scores;
  sub_now : string;
  sub_comentario : pyval;
  sub_nombre : string;
  sub_email : string
}.

Definition agregar (c : Submission) (w : World) : World :=
  snd (App.agregar_comentario (sub_translate c) (sub_polarity_scores c)
                              (sub_now c) (sub_comentario c) (sub_nombre c)
                              (sub_email c) w).

(** Calls of [agregar_comentario] one after the other. *)
Fixpoint agregar_todos (l : list Submission) (w : World) : World :=
  match l with
  | [] => w
  | c :: rest => agregar_todos rest (agregar c w)
  end.

(** What every row the application writes satisfies: the label is the
    classification of the compound score, the name is not empty and the id
    is at least 1. *)
Definition row_ok (r : Fila) : Prop :=
  col_sentimiento r = App.clasificar_sentimiento (col_compound r)
  /\ col_nombre r <> ""
  /\ (1 <= col_id r)%Z.

(** What the loop of [inicializar_dataset] puts in the row of a seed. *)
Definition seeded (now : string) (e : string * string) (r : Fila) : Prop :=
  col_comentario r = PStr (fst e)
  /\ col_nombre r = snd e
  /\ col_email r = (Text.lower (snd e) ++ "@ejemplo.com")
  /\ col_fecha r = now
  /\ col_sentimiento r = App.clasificar_sentimiento (col_compound r).

(** The characters of a text. *)
Definition chars (s : string) : list ascii := list_ascii_of_string s.

(** The characters [limpiar_texto] lets through: the space, and the letters
    and digits of its pattern. *)
Definition clean_char (c : ascii) : bool :=
  Ascii.eqb c " " || (Text.kept c && negb (Text.isspace c)).

(** The space, and texts without two spaces in a row, as a proposition
    (the boolean [no_double_space] below decides it). *)
Definition space : ascii := " "%char.
Definition spaces_apart (l : list ascii) : Prop :=
  forall p q, l <> (p ++ space :: space :: q)%list.

(** A text in the form [limpiar_texto] produces: clean characters only, no
    space at either end and no two spaces in a row. *)
Fixpoint no_double_space (l : list ascii) : bool :=
  match l with
  | a :: ((b :: _) as rest) =>
      negb (Ascii.eqb a " " && Ascii.eqb b " ") && no_double_space rest
  | _ => true
  end.

Definition cleaned (s : string) : bool :=
  forallb clean_char (chars s)
  && match chars s with
     | [] => true
     | a :: _ => negb (Ascii.eqb a " ")
     end
  && match rev (chars s) with
     | [] => true
     | a :: _ => negb (Ascii.eqb a " ")
     end
  && no_double_space (chars s).

Module MoreSamples.


End MoreSamples.

Module MoreWorlds.
Import Worlds.

(** A store in which two rows carry the id 2. *)
Definition w225 : World :=
  mkWorld (Csv (mkDF App.schema
                     [fila0 2 "Positivo" (6 # 10); fila0 2 "Neutro" 0;
                      fila0 5 "Negativo" (- (3 # 10))]))
          true [].

End MoreWorlds.

Module ViewSamples.
Import Samples Worlds.

(** Services for the sample runs: the translator answers, the scorer reacts
    to exclamation marks, the figure is drawn, and the rows come back from
    [sort_values] as they are (the two rows of [w12] carry the same date). *)
Definition sv0 : Views.Services :=
  Views.mkServices translate_up scorer_bang t0 "2024-01-02T09:30:00"
                   "20240102" (fun _ => []) (fun _ => Ok "png")
                   (fun rows => rows) (fun _ => Ok tt).

Definition admin : Views.Session := Views.mkSession (Some true) (Some t0).

Definition sub0 (comentario : string) : Submission :=
  mkSubmission translate_up scorer_bang t0 (PStr comentario) "Eva" "".

End ViewSamples.

Module DashboardSamples.
Import Samples Worlds ViewSamples.

(** [sort_values('fecha', ascending=False)] done by insertion. *)
Fixpoint insert_desc (r : Fila) (l : list Fila) : list Fila :=
  match l with
  | [] => [r]
  | x :: t =>
      if String.leb (col_fecha x) (col_fecha r) then r :: l
      else x :: insert_desc r t
  end.

Definition sort_desc (l : list Fila) : list Fila :=
  fold_right insert_desc [] l.

(** [value_counts()]: each label that occurs with its number of rows, the
    most frequent first. *)
Fixpoint count_occ_label (label : string) (l : list string) : nat :=
  match l with
  | [] => 0
  | x :: t => (if String.eqb x label then 1 else 0) + count_occ_label label t
  end.

Fixpoint distinct (seen l : list string) : list string :=
  match l with
  | [] => []
  | x :: t =>
      if existsb (String.eqb x) seen then distinct seen t
      else x :: distinct (x :: seen) t
  end.

Fixpoint insert_count (p : string * nat) (l : list (string * nat))
  : list (string * nat) :=
  match l with
  | [] => [p]
  | q :: t => if snd q <=? snd p then p :: l else q :: insert_count p t
  end.

Definition count_values (l : list string) : list (string * nat) :=
  fold_right insert_count []
             (map (fun label => (label, count_occ_label label l))
                  (distinct [] l)).

(** The figure: the pie is drawn with three [explode] values, so matplotlib
    raises unless there are exactly three labels to draw. *)
Definition draw (stats : list (string * nat)) : exc string :=
  if length stats =? 3 then Ok "iVBORw0KGgo"
  else Raise "'explode' must be of length 'x'".

Definition sv1 : Views.Services :=
  Views.mkServices translate_up scorer_bang t0 "2024-01-13T09:30:00"
                   "20240113" count_values draw sort_desc (fun _ => Ok tt).

Definition fila1 (id : Z) (fecha label : string) (c : Q) : Fila :=
  mkFila id fecha "Ana" "" (PStr "bus") label c 0 0 1.

(** Twelve comments, one a day, with the three labels. *)
Definition w_dash : World :=
  mkWorld (Csv (mkDF App.schema
  [
   fila1 1 "2024-01-01 08:00:00" "Positivo" (6 # 10);
   fila1 2 "2024-01-02 08:00:00" "Negativo" (- (4 # 10));
   fila1 3 "2024-01-03 08:00:00" "Neutro" 0;
   fila1 4 "2024-01-04 08:00:00" "Positivo" (5 # 10);
   fila1 5 "2024-01-05 08:00:00" "Positivo" (7 # 10);
   fila1 6 "2024-01-06 08:00:00" "Negativo" (- (3 # 10));
   fila1 7 "2024-01-07 08:00:00" "Positivo" (2 # 10);
   fila1 8 "2024-01-08 08:00:00" "Neutro" 0;
   fila1 9 "2024-01-09 08:00:00" "Negativo" (- (6 # 10));
   fila1 10 "2024-01-10 08:00:00" "Positivo" (8 # 10);
   fila1 11 "2024-01-11 08:00:00" "Negativo" (- (2 # 10));
   fila1 12 "2024-01-12 08:00:00" "Positivo" (4 # 10) ]))
          true [].

End DashboardSamples.

(* ====================================================================== *)
(** ** Running the operations                                               *)
(* ====================================================================== *)

Ltac run := unfold try_except, bind, ret, raise, get_disk, read_csv; simpl.

Lemma cargar_dataset_run : forall w,
  App.cargar_dataset w = (Ok (loaded (disk w)), w).
Proof.
  intros [d wr tl]. unfold App.cargar_dataset. run.
  destruct d; reflexivity.
Qed.

Lemma analysis_cargar_dataset_run : forall w,
  Analysis.cargar_dataset w
  = (Ok (match disk w with
         | NoFile => mkDF Analysis.schema []
         | EmptyFile | Corrupt => mkDF [] []
         | Csv df => df
         end), w).
Proof.
  intros [d wr tl]. unfold Analysis.cargar_dataset. run.
  destruct d; reflexivity.
Qed.

(* ====================================================================== *)
(** ** The classifier                                                       *)
(* ====================================================================== *)

Section Classifier.

Local Open Scope Q_scope.

Lemma clasificar_cases : forall c,
  (5 # 100 <= c /\ App.clasificar_sentimiento c = "Positivo")
  \/ (c <= - (5 # 100) /\ ~ 5 # 100 <= c
      /\ App.clasificar_sentimiento c = "Negativo")
  \/ (~ c <= - (5 # 100) /\ ~ 5 # 100 <= c
      /\ App.clasificar_sentimiento c = "Neutro").
Proof.
  intros c. unfold App.clasificar_sentimiento.
  destruct (Qle_bool (5 # 100) c) eqn:Hp.
  - left. split; [now apply Qle_bool_iff | reflexivity].
  - assert (Hn : ~ 5 # 100 <= c).
    { intros H. apply Qle_bool_iff in H. congruence. }
    destruct (Qle_bool c (- (5 # 100))) eqn:Hm.
    + right; left. repeat split; [now apply Qle_bool_iff | exact Hn].
    + right; right. repeat split; [| exact Hn].
      intros H. apply Qle_bool_iff in H. congruence.
Qed.

Lemma clasificar_same : forall c,
  Analysis.clasificar_sentimiento c = App.clasificar_sentimiento c.
Proof. reflexivity. Qed.

Lemma clasificar_in_labels : forall c,
  In (App.clasificar_sentimiento c) labels.
Proof.
  intros c. unfold App.clasificar_sentimiento, labels.
  destruct (Qle_bool _ c); [simpl; auto |].
  destruct (Qle_bool c _); simpl; auto.
Qed.

(** C6.  The classifier is a total function of the compound score alone:
    it answers Positivo exactly when [compound >= 0.05], Negativo exactly
    when [compound <= -0.05] and Neutro exactly in between, for every
    compound (in particular for those of [-1, 1]); so 0.05 is Positivo,
    0.04999 is Neutro and -0.05 is Negativo.  Both modules agree. *)
Theorem clasificar_sentimiento_thresholds : forall c : Q,
  (App.clasificar_sentimiento c = "Positivo" <-> 5 # 100 <= c)
  /\ (App.clasificar_sentimiento c = "Negativo" <-> c <= - (5 # 100))
  /\ (App.clasificar_sentimiento c = "Neutro"
      <-> - (5 # 100) < c /\ c < 5 # 100)
  /\ Analysis.clasificar_sentimiento c = App.clasificar_sentimiento c
  /\ App.clasificar_sentimiento (5 # 100) = "Positivo"
  /\ App.clasificar_sentimiento (4999 # 100000) = "Neutro"
  /\ App.clasificar_sentimiento (- (5 # 100)) = "Negativo".
Proof.
  intros c.
  assert (Hlt : forall a b : Q, ~ a <= b <-> b < a).
  { intros a b. split; [apply Qnot_le_lt | apply Qlt_not_le]. }
  assert (Hgap : c <= - (5 # 100) -> 5 # 100 <= c -> False).
  { intros H1 H2. pose proof (Qle_trans _ _ _ H2 H1) as H.
    revert H. unfold Qle; simpl. lia. }
  assert (Htail : Analysis.clasificar_sentimiento c
                  = App.clasificar_sentimiento c
                  /\ App.clasificar_sentimiento (5 # 100) = "Positivo"
                  /\ App.clasificar_sentimiento (4999 # 100000) = "Neutro"
                  /\ App.clasificar_sentimiento (- (5 # 100)) = "Negativo").
  { repeat split. }
  split; [| split; [| split; [| exact Htail]]]; clear Htail;
    destruct (clasificar_cases c) as [[Hp E] | [[Hm [Hp E]] | [Hm [Hp E]]]];
    rewrite E; split; intros H;
    try reflexivity; try discriminate; try assumption;
    try (exfalso; tauto);
    try match type of H with
        | _ /\ _ =>
            destruct H as [H1 H2]; apply Hlt in H1; apply Hlt in H2;
            exfalso; tauto
        end.
  split; now apply Hlt.
Qed.

End Classifier.

(* ====================================================================== *)
(** ** The normalizer                                                       *)
(* ====================================================================== *)

Section Normalizer.

Variable translate : string -> exc string.

(** What [traducir_es_en] of [app.py] does on a string, by cases on the
    check and on the answer of the translator. *)
Lemma traducir_es_en_str : forall s w,
  App.traducir_es_en translate (PStr s) w
  = if negb (String.eqb s "") && tiene_espanol s
       && (1 <? length (Text.split s))
    then (match translate s with
          | Ok r => Ok (PStr r)
          | Raise _ => Ok (PStr s)
          end, mkWorld (disk w) (writable w) (s :: translated w))
    else (Ok (PStr s), w).
Proof.
  intros s w. unfold App.traducir_es_en, try_except, bind, ret.
  fold (tiene_espanol s). cbn [truthy isinstance_str negb orb].
  destruct (String.eqb s ""); cbn [negb andb]; [reflexivity |].
  destruct (tiene_espanol s); cbn [andb]; [| reflexivity].
  destruct (1 <? length (Text.split s)); [| reflexivity].
  unfold App.GoogleTranslator_translate.
  destruct (translate s); reflexivity.
Qed.

Lemma analysis_traducir_es_en_str : forall s w,
  Analysis.traducir_es_en translate (PStr s) w
  = if negb (String.eqb s "") && tiene_espanol s
    then (match translate s with
          | Ok r => Ok (PStr r)
          | Raise _ => Ok (PStr s)
          end, mkWorld (disk w) (writable w) (s :: translated w))
    else (Ok (PStr s), w).
Proof.
  intros s w. unfold Analysis.traducir_es_en, try_except, bind, ret.
  fold (tiene_espanol s). cbn [truthy isinstance_str negb orb].
  destruct (String.eqb s ""); cbn [negb andb]; [reflexivity |].
  destruct (tiene_espanol s); [| reflexivity].
  unfold App.GoogleTranslator_translate.
  destruct (translate s); reflexivity.
Qed.

Lemma traducir_es_en_not_text : forall texto w,
  truthy texto = false \/ isinstance_str texto = false ->
  App.traducir_es_en translate texto w = (Ok texto, w)
  /\ Analysis.traducir_es_en translate texto w = (Ok texto, w).
Proof.
  intros texto w H.
  unfold App.traducir_es_en, Analysis.traducir_es_en. run.
  destruct H as [H | H]; rewrite H; simpl; [split; reflexivity |].
  rewrite orb_true_r. split; reflexivity.
Qed.

(** The normalizer leaves the file alone and only adds to the log of
    requests. *)
Lemma traducir_es_en_world : forall texto w,
  exists v w', App.traducir_es_en translate texto w = (Ok v, w')
               /\ disk w' = disk w /\ writable w' = writable w.
Proof.
  intros texto w. destruct texto as [| b | z | s];
    try match goal with
        | |- context [App.traducir_es_en _ ?t _] =>
            destruct (traducir_es_en_not_text t w (or_intror eq_refl))
              as [E _]; rewrite E; eauto
        end.
  rewrite traducir_es_en_str.
  destruct (_ && _); [| eauto].
  destruct (translate s); eauto.
Qed.

(** C8.  In both modules the normalizer always returns a value, never an
    exception; when the translator raises on the text the value is the
    text itself; and on an empty or non-string input the value is the input
    and the world is unchanged, so no request went to the translator. *)
Theorem traducir_es_en_never_raises : forall texto w,
  (exists v w',
      App.traducir_es_en translate texto w = (Ok v, w')
      /\ (forall s e, texto = PStr s -> translate s = Raise e -> v = texto)
      /\ (truthy texto = false \/ isinstance_str texto = false ->
          v = texto /\ w' = w))
  /\ (exists v w',
      Analysis.traducir_es_en translate texto w = (Ok v, w')
      /\ (forall s e, texto = PStr s -> translate s = Raise e -> v = texto)
      /\ (truthy texto = false \/ isinstance_str texto = false ->
          v = texto /\ w' = w)).
Proof.
  intros texto w.
  destruct (isinstance_str texto) eqn:Hi.
  2:{ destruct (traducir_es_en_not_text texto w (or_intror Hi)) as [E1 E2].
      rewrite E1, E2.
      split; exists texto, w; (split; [reflexivity |]); split; auto. }
  destruct texto as [| b | z | s]; try discriminate.
  rewrite traducir_es_en_str, analysis_traducir_es_en_str.
  split.
  - destruct (negb (String.eqb s "")) eqn:Hs; simpl.
    + destruct (tiene_espanol s && _);
        [destruct (translate s) eqn:Ht |];
        do 2 eexists; (split; [reflexivity |]); split;
        try (intros [H | H]; simpl in H; congruence);
        intros s' e' Hs' Ht'; injection Hs' as <-; congruence.
    + do 2 eexists; split; [reflexivity |]. split; auto.
  - destruct (negb (String.eqb s "")) eqn:Hs; simpl.
    + destruct (tiene_espanol s);
        [destruct (translate s) eqn:Ht |];
        do 2 eexists; (split; [reflexivity |]); split;
        try (intros [H | H]; simpl in H; congruence);
        intros s' e' Hs' Ht'; injection Hs' as <-; congruence.
    + do 2 eexists; split; [reflexivity |]. split; auto.
Qed.

(** The text goes to the translator exactly when the substring check and
    the token count of [app.py] say so. *)
Lemma traducir_es_en_requests : forall s w,
  translated (snd (App.traducir_es_en translate (PStr s) w))
  = if negb (String.eqb s "") && tiene_espanol s
       && (1 <? length (Text.split s))
    then s :: translated w else translated w.
Proof.
  intros s w. rewrite traducir_es_en_str.
  destruct (_ && _); reflexivity.
Qed.

(** C3.  On "hello world" no token is a stop word, so the check in the
    words of the specification says "not Spanish"; [app.py] finds "el"
    inside "hello" and sends the text to the translator.  On the single
    token "el" the specification says "not Spanish" as well, and the copy
    in [smartcities_analysis.py], which has no token count, translates. *)
Theorem traducir_es_en_matches_substrings : forall w,
  is_spanish_by_tokens "hello world" = false
  /\ translated (snd (App.traducir_es_en translate (PStr "hello world") w))
     = "hello world" :: translated w
  /\ is_spanish_by_tokens "el" = false
  /\ translated (snd (App.traducir_es_en translate (PStr "el") w))
     = translated w
  /\ translated (snd (Analysis.traducir_es_en translate (PStr "el") w))
     = "el" :: translated w.
Proof.
  intros w.
  rewrite !traducir_es_en_requests, analysis_traducir_es_en_str.
  repeat split.
Qed.

End Normalizer.

(* ---------------------------------------------------------------------- *)
(** *** Tokens and substrings                                               *)
(* ---------------------------------------------------------------------- *)

Section Tokens.

Lemma starts_with_app : forall t s, Text.starts_with t (t ++ s) = true.
Proof.
  induction t as [| a t IH]; intros s; simpl; [reflexivity |].
  now rewrite Ascii.eqb_refl, IH.
Qed.

Lemma contains_prefix : forall t s,
  Text.starts_with t s = true -> Text.contains t s = true.
Proof. intros t [| c s] H; simpl; rewrite H; reflexivity. Qed.

Lemma contains_cons : forall t c s,
  Text.contains t s = true -> Text.contains t (String c s) = true.
Proof. intros t c s H. simpl. rewrite H. apply orb_true_r. Qed.

Lemma contains_app_l : forall p t s,
  Text.contains t s = true -> Text.contains t (p ++ s) = true.
Proof.
  induction p as [| c p IH]; intros t s H; [exact H |].
  apply contains_cons, IH, H.
Qed.

Lemma string_of_snoc : forall l a s,
  string_of_list_ascii (l ++ [a]%list) ++ s
  = string_of_list_ascii l ++ String a s.
Proof.
  induction l as [| b l IH]; intros a s; simpl; [reflexivity |].
  now rewrite IH.
Qed.

(** Every token [split] returns is a substring of the text. *)
Lemma split_aux_contains : forall s cur t,
  In t (Text.split_aux cur s) ->
  Text.contains t (string_of_list_ascii (rev cur) ++ s) = true.
Proof.
  induction s as [| c s IH]; intros cur t Hin; cbn [Text.split_aux] in Hin.
  - destruct cur as [| a cur]; [contradiction |].
    destruct Hin as [<- | []]. apply contains_prefix, starts_with_app.
  - destruct (Text.isspace c).
    + destruct cur as [| a cur].
      * apply contains_cons. apply (IH [] t Hin).
      * destruct Hin as [<- | Hin];
          [apply contains_prefix, starts_with_app |].
        apply contains_app_l, contains_cons. apply (IH [] t Hin).
    + specialize (IH (c :: cur) t Hin). cbn [rev] in IH.
      now rewrite string_of_snoc in IH.
Qed.

(** When the check in the words of the specification says "Spanish", so
    does the check of [app.py]; the converse fails (theorem
    [traducir_es_en_matches_substrings]). *)
Lemma token_check_implies_substring_check : forall s,
  is_spanish_by_tokens s = true ->
  tiene_espanol s && (1 <? length (Text.split s)) = true.
Proof.
  intros s H. unfold is_spanish_by_tokens in H.
  apply andb_true_iff in H. destruct H as [Htok Hlen].
  rewrite Hlen, andb_true_r.
  apply existsb_exists in Htok. destruct Htok as (token & Hin & Hp).
  apply existsb_exists in Hp. destruct Hp as (palabra & Hpal & Heq).
  apply String.eqb_eq in Heq. subst palabra.
  unfold tiene_espanol. apply existsb_exists.
  exists token. split; [exact Hpal |].
  apply (split_aux_contains (Text.lower s) [] token Hin).
Qed.

End Tokens.


(* ====================================================================== *)
(** ** Loading the table                                                    *)
(* ====================================================================== *)

(** C5.  [cargar_dataset] never raises.  Without a file, or with one of size
    zero, [app.py] returns the empty frame with its ten columns; on a file
    that cannot be parsed it returns [pd.DataFrame()], which is empty and has
    no column at all.  The copy in [smartcities_analysis.py] does not test
    the size, so a file of size zero takes the same path there. *)
Theorem cargar_dataset_unparsable_has_no_columns : forall wr tl,
  App.cargar_dataset (mkWorld NoFile wr tl)
  = (Ok (mkDF App.schema []), mkWorld NoFile wr tl)
  /\ App.cargar_dataset (mkWorld EmptyFile wr tl)
     = (Ok (mkDF App.schema []), mkWorld EmptyFile wr tl)
  /\ App.cargar_dataset (mkWorld Corrupt wr tl)
     = (Ok (mkDF [] []), mkWorld Corrupt wr tl)
  /\ Analysis.cargar_dataset (mkWorld NoFile wr tl)
     = (Ok (mkDF Analysis.schema []), mkWorld NoFile wr tl)
  /\ Analysis.cargar_dataset (mkWorld EmptyFile wr tl)
     = (Ok (mkDF [] []), mkWorld EmptyFile wr tl)
  /\ Analysis.cargar_dataset (mkWorld Corrupt wr tl)
     = (Ok (mkDF [] []), mkWorld Corrupt wr tl)
  /\ columns (mkDF [] []) <> App.schema
  /\ columns (mkDF [] []) <> Analysis.schema.
Proof.
  intros wr tl. repeat split; discriminate.
Qed.

(** Whatever the file holds, loading returns a frame and leaves the world as
    it was. *)
Lemma cargar_dataset_total : forall w,
  exists df, App.cargar_dataset w = (Ok df, w).
Proof.
  intros w. exists (loaded (disk w)). apply cargar_dataset_run.
Qed.

(* ====================================================================== *)
(** ** Statistics                                                           *)
(* ====================================================================== *)

Section Statistics.

Local Open Scope Q_scope.

Lemma fold_left_Qplus : forall l a, fold_left Qplus l a == a + sum_Q l.
Proof.
  induction l as [| x l IH]; intros a; simpl.
  - ring.
  - rewrite IH. ring.
Qed.

Lemma Series_mean_arithmetic : forall l,
  Series_mean l == arithmetic_mean l.
Proof.
  intros l. unfold Series_mean, arithmetic_mean.
  rewrite fold_left_Qplus. now rewrite Qplus_0_l.
Qed.

Lemma mean_times_length : forall l,
  l <> [] ->
  arithmetic_mean l * inject_Z (Z.of_nat (length l)) == sum_Q l.
Proof.
  intros l Hl. unfold arithmetic_mean.
  rewrite Qmult_comm. apply Qmult_div_r.
  destruct l as [| x l]; [congruence |].
  unfold Qeq, inject_Z. simpl length. simpl Qnum. simpl Qden. lia.
Qed.

Lemma empty_false_rows : forall df, empty df = false -> filas df <> [].
Proof.
  intros [cols rows]. unfold empty; simpl.
  destruct rows; [discriminate | discriminate].
Qed.

(** C7.  On an empty table both copies of the aggregator return the counts
    0, 0, 0, 0 and the mean 0 (exactly, not up to equality of fractions);
    on a table with rows the mean they return is the arithmetic mean of
    the column [compound]: the sum of the column over the number of rows,
    so that mean times number of rows is the sum. *)
Theorem obtener_estadisticas_mean : forall w df,
  (App.cargar_dataset w = (Ok df, w) ->
   stats_as_specified df (fst (App.obtener_estadisticas w))
   /\ snd (App.obtener_estadisticas w) = w)
  /\ (Analysis.cargar_dataset w = (Ok df, w) ->
      stats_as_specified df (fst (Analysis.obtener_estadisticas w))
      /\ snd (Analysis.obtener_estadisticas w) = w).
Proof.
  intros w df.
  split; intros Hload;
    [unfold App.obtener_estadisticas | unfold Analysis.obtener_estadisticas];
    unfold bind; rewrite Hload; unfold stats_as_specified;
    destruct (empty df) eqn:He.
  1,3: split; [split; [intros _ | discriminate] | reflexivity];
       eexists; split; [reflexivity |]; repeat split.
  all: split; [split; [discriminate | intros _ Hs Hc] |
               destruct (has_column "sentimiento" df); reflexivity];
       rewrite Hs, Hc; cbn [negb]; unfold ret; cbn [fst];
       eexists; split; [reflexivity |]; split; [reflexivity |];
       cbn [promedio_compound total];
       split; [apply Series_mean_arithmetic |];
       rewrite Series_mean_arithmetic;
       rewrite <- (length_map col_compound);
       apply mean_times_length;
       intros Hnil; apply map_eq_nil in Hnil;
       now apply (empty_false_rows df He).
Qed.

End Statistics.

(* ====================================================================== *)
(** ** The analysis and the writing operations of app.py                    *)
(* ====================================================================== *)

Section Pipeline.

Variable translate : string -> exc string.
Variable polarity_scores : string -> exc Scores.
Variable now : string.

Local Abbreviation analizar :=
  (App.analizar_sentimiento translate polarity_scores).
Local Abbreviation agregar :=
  (App.agregar_comentario translate polarity_scores now).

(** The analysis of [app.py] always returns a dictionary, with one of the
    three labels, and touches neither the file nor its permissions. *)
Lemma analizar_sentimiento_run : forall comentario w,
  exists r w',
    analizar comentario w = (Ok r, w')
    /\ disk w' = disk w /\ writable w' = writable w
    /\ In (sentimiento r) labels.
Proof.
  intros comentario w. unfold App.analizar_sentimiento, try_except.
  assert (Hneutro : In "Neutro" labels) by (simpl; tauto).
  destruct (negb (truthy comentario) || negb (isinstance_str comentario)).
  - do 2 eexists. split; [reflexivity |]. repeat split. exact Hneutro.
  - unfold bind.
    destruct (traducir_es_en_world translate comentario w)
      as (v & w' & E & Hd & Hw).
    rewrite E.
    destruct v as [| b | z | t];
      try (do 2 eexists; split; [reflexivity |];
           repeat split; solve [assumption | exact Hneutro]).
    unfold App.analyzer_polarity_scores.
    destruct (polarity_scores t) as [sc | e];
      do 2 eexists; (split; [reflexivity |]);
      repeat split; try assumption.
    apply clasificar_in_labels.
Qed.

(** [agregar_comentario], by cases on whether the file can be written:
    the row appended is built from the result of the analysis and from the
    frame loaded. *)
Lemma agregar_comentario_run : forall comentario nombre email w,
  exists r w1,
    analizar comentario w = (Ok r, w1)
    /\ disk w1 = disk w /\ writable w1 = writable w
    /\ In (sentimiento r) labels
    /\ agregar comentario nombre email w
       = if writable w
         then (Ok (true, Some r),
               mkWorld
                 (Csv (App.concat
                         (loaded (disk w))
                         (App.fila_de now (App.nuevo_id (loaded (disk w)))
                            (if String.eqb nombre "" then Anonimo
                             else nombre)
                            email comentario r)))
                 true (translated w1))
         else (Ok (false, None), w1).
Proof.
  intros comentario nombre email w.
  destruct (analizar_sentimiento_run comentario w)
    as (r & w1 & E & Hd & Hw & Hl).
  exists r, w1. repeat split; auto.
  unfold App.agregar_comentario, try_except, bind. rewrite E.
  rewrite cargar_dataset_run, Hd. unfold to_csv. rewrite Hw.
  destruct (writable w); reflexivity.
Qed.

(** The loop of [inicializar_dataset] numbers the rows from [i + 1] on. *)
Lemma construir_datos_run : forall l i w,
  exists datos w',
    App.construir_datos translate polarity_scores now i l w = (Ok datos, w')
    /\ disk w' = disk w /\ writable w' = writable w
    /\ map col_id datos
       = map (fun k => (Z.of_nat k + 1)%Z) (seq i (length l))
    /\ Forall (fun r => In (col_sentimiento r) labels) datos.
Proof.
  induction l as [| [comentario nombre] l IH]; intros i w.
  - exists [], w. repeat split; constructor.
  - cbn [App.construir_datos]. unfold bind.
    destruct (analizar_sentimiento_run (PStr comentario) w)
      as (r & w1 & E & Hd & Hw & Hl).
    rewrite E.
    destruct (IH (S i) w1) as (datos & w2 & E2 & Hd2 & Hw2 & Hids & Hall).
    rewrite E2. do 2 eexists. split; [reflexivity |].
    repeat split; try congruence.
    + simpl. now rewrite Hids.
    + constructor; [exact Hl | exact Hall].
Qed.

Lemma inicializar_dataset_run : forall w,
  exists datos w',
    App.construir_datos translate polarity_scores now 0 App.ejemplos w
    = (Ok datos, w')
    /\ disk w' = disk w /\ writable w' = writable w
    /\ map col_id datos = [1; 2; 3; 4; 5; 6; 7; 8; 9; 10]%Z
    /\ Forall (fun r => In (col_sentimiento r) labels) datos
    /\ App.inicializar_dataset translate polarity_scores now w
       = if negb (path_exists (disk w)) || negb (getsize_pos (disk w))
         then if writable w
              then (Ok tt, mkWorld (Csv (mkDF App.schema datos)) true
                                   (translated w'))
              else (Raise "PermissionError", w')
         else (Ok tt, w).
Proof.
  intros w.
  destruct (construir_datos_run App.ejemplos 0 w)
    as (datos & w' & E & Hd & Hw & Hids & Hall).
  exists datos, w'. repeat split; auto.
  unfold App.inicializar_dataset, bind, get_disk.
  destruct (negb (path_exists (disk w)) || negb (getsize_pos (disk w)));
    [| reflexivity].
  rewrite E. unfold to_csv. rewrite Hw.
  destruct datos as [| d datos]; [discriminate |].
  destruct (writable w); reflexivity.
Qed.

End Pipeline.

Lemma delete_comment_run : forall id w,
  App.delete_comment true id w
  = if negb (empty (loaded (disk w))) && has_column "id" (loaded (disk w))
    then if writable w
         then (Ok (Redirect "admin_dashboard"),
               mkWorld (Csv (drop_id id (loaded (disk w)))) true
                       (translated w))
         else (Ok (ErrorPage "Error al eliminar: PermissionError" 500), w)
    else (Ok (Redirect "admin_dashboard"), w).
Proof.
  intros id w. unfold App.delete_comment, try_except, bind. cbn [negb].
  rewrite cargar_dataset_run.
  destruct (negb (empty (loaded (disk w))) && has_column "id" (loaded (disk w)));
    [| reflexivity].
  unfold to_csv. destruct (writable w); reflexivity.
Qed.

Lemma delete_comment_anonymous : forall id w,
  App.delete_comment false id w = (Ok (Redirect "admin_login"), w).
Proof. reflexivity. Qed.

(* ====================================================================== *)
(** ** Deleting by id                                                       *)
(* ====================================================================== *)

Local Open Scope list_scope.

Section Delete.

Local Open Scope Z_scope.

Variable id : Z.

Let keep (r : Fila) : bool := negb (Z.eqb (col_id r) id).

Lemma filter_absent : forall l,
  ~ In id (map col_id l) -> filter keep l = l.
Proof.
  induction l as [| a l IH]; intros Hn; simpl; [reflexivity |].
  unfold keep at 1. destruct (Z.eqb_spec (col_id a) id) as [E | E]; simpl.
  - exfalso. apply Hn. now left.
  - f_equal. apply IH. intros H. apply Hn. now right.
Qed.

Lemma filter_unique : forall l,
  NoDup (map col_id l) -> In id (map col_id l) ->
  exists before r after,
    l = before ++ r :: after /\ col_id r = id
    /\ filter keep l = before ++ after.
Proof.
  induction l as [| a l IH]; intros Hnd Hin; simpl in *; [contradiction |].
  inversion Hnd as [| x xs Hnotin Hnd']; subst.
  unfold keep at 1. destruct (Z.eqb_spec (col_id a) id) as [E | E]; simpl.
  - exists [], a, l. repeat split; [exact E |].
    apply filter_absent. now rewrite <- E.
  - destruct Hin as [Hin | Hin]; [contradiction |].
    destruct (IH Hnd' Hin) as (before & r & after & El & Er & Ef).
    exists (a :: before), r, after. simpl.
    repeat split; [now rewrite El at 1 | exact Er | now rewrite Ef].
Qed.

Lemma filter_ids_incl : forall l i,
  In i (map col_id (filter keep l)) -> In i (map col_id l).
Proof.
  intros l i H. apply in_map_iff in H. destruct H as (r & Er & Hr).
  apply filter_In in Hr. apply in_map_iff. exists r. tauto.
Qed.

Lemma filter_ids_NoDup : forall l,
  NoDup (map col_id l) -> NoDup (map col_id (filter keep l)).
Proof.
  induction l as [| a l IH]; intros Hnd; simpl; [constructor |].
  inversion Hnd as [| x xs Hnotin Hnd']; subst.
  destruct (keep a); simpl; [| now apply IH].
  constructor; [| now apply IH].
  intros H. apply Hnotin. now apply filter_ids_incl.
Qed.

End Delete.

Lemma loaded_of_run : forall w df,
  App.cargar_dataset w = (Ok df, w) -> df = loaded (disk w).
Proof.
  intros w df H. rewrite cargar_dataset_run in H. congruence.
Qed.

Lemma well_formed_guard : forall df,
  well_formed df ->
  negb (empty df) && has_column "id" df
  = match filas df with [] => false | _ => true end.
Proof.
  intros [cols rows] Hwf. unfold well_formed in Hwf. simpl in *.
  destruct rows as [| r rows]; [reflexivity |].
  rewrite Hwf by discriminate. reflexivity.
Qed.

(** C9, as amended.  For a table whose ids are unique (the invariant of
    the data model) and a file that can be written, [delete_comment] run by
    the administrator answers with the redirection to the dashboard, never
    with the error page.  When a row has the id, the table loaded afterwards is
    the old one without that row: one row fewer, the others unchanged and in
    the same order.  When no row has the id, the table loaded afterwards has
    the same rows. *)
Theorem delete_comment_removes_one_row : forall id w df,
  App.cargar_dataset w = (Ok df, w) ->
  well_formed df ->
  NoDup (ids df) ->
  writable w = true ->
  exists w' df',
    App.delete_comment true id w = (Ok (Redirect "admin_dashboard"), w')
    /\ App.cargar_dataset w' = (Ok df', w')
    /\ (In id (ids df) ->
        exists before r after,
          filas df = before ++ r :: after
          /\ col_id r = id
          /\ filas df' = before ++ after
          /\ S (length (filas df')) = length (filas df))
    /\ (~ In id (ids df) ->
        filas df' = filas df /\ length (filas df') = length (filas df)).
Proof.
  intros id w df Hload Hwf Hnd Hw.
  pose proof (loaded_of_run _ _ Hload) as ->.
  rewrite delete_comment_run, (well_formed_guard _ Hwf), Hw.
  destruct (filas (loaded (disk w))) as [| r0 rows] eqn:Hrows.
  - exists w, (loaded (disk w)).
    split; [reflexivity |]. split; [exact Hload |].
    unfold ids. rewrite Hrows. simpl. split; [contradiction | auto].
  - eexists. exists (drop_id id (loaded (disk w))).
    split; [reflexivity |]. split; [now rewrite cargar_dataset_run |].
    unfold ids in *. rewrite Hrows in *. unfold drop_id. cbn [filas].
    rewrite Hrows. split.
    + intros Hin.
      destruct (filter_unique id _ Hnd Hin) as (before & r & after & E & Er & Ef).
      exists before, r, after. rewrite Ef, E.
      repeat split; [exact Er |].
      rewrite !length_app. simpl. lia.
    + intros Hn. rewrite (filter_absent id _ Hn). auto.
Qed.

(* ====================================================================== *)
(** ** Assigning ids                                                        *)
(* ====================================================================== *)

Section Ids.

Local Open Scope Z_scope.

Lemma fold_left_max : forall t x,
  x <= fold_left Z.max t x
  /\ (forall i, In i t -> i <= fold_left Z.max t x)
  /\ In (fold_left Z.max t x) (x :: t).
Proof.
  induction t as [| y t IH]; intros x; simpl.
  - repeat split; [lia | contradiction | now left].
  - destruct (IH (Z.max x y)) as (H1 & H2 & H3).
    repeat split.
    + apply Z.le_trans with (Z.max x y); [apply Z.le_max_l | exact H1].
    + intros i [<- | Hi]; [| now apply H2].
      apply Z.le_trans with (Z.max x y); [apply Z.le_max_r | exact H1].
    + destruct H3 as [H3 | H3]; [| now right; right].
      rewrite <- H3.
      destruct (Z.max_spec x y) as [[_ E] | [_ E]]; rewrite E; auto.
Qed.

(** [Series.max()] is an element of a non-empty column and bounds it. *)
Lemma Series_max_spec : forall l,
  l <> [] ->
  In (Series_max l) l /\ forall i, In i l -> i <= Series_max l.
Proof.
  intros [| x t] Hl; [congruence |]. unfold Series_max.
  destruct (fold_left_max t x) as (H1 & H2 & H3).
  split; [exact H3 |]. intros i [<- | Hi]; auto.
Qed.

Lemma nuevo_id_spec : forall df,
  well_formed df ->
  (filas df = [] -> App.nuevo_id df = 1)
  /\ (filas df <> [] ->
      exists top, In top (ids df)
                  /\ (forall i, In i (ids df) -> i <= top)
                  /\ App.nuevo_id df = top + 1).
Proof.
  intros df Hwf. unfold App.nuevo_id.
  rewrite (well_formed_guard _ Hwf). split.
  - intros ->. reflexivity.
  - intros Hne. destruct (filas df) as [| r rows] eqn:E; [congruence |].
    destruct (Series_max_spec (map col_id (r :: rows))) as [Hin Hmax];
      [discriminate |].
    exists (Series_max (map col_id (r :: rows))).
    unfold ids. rewrite E. auto.
Qed.

Lemma nuevo_id_fresh : forall df i,
  well_formed df -> In i (ids df) -> i < App.nuevo_id df.
Proof.
  intros df i Hwf Hi.
  destruct (nuevo_id_spec df Hwf) as [_ H].
  destruct H as (top & _ & Hmax & ->).
  - intros E. unfold ids in Hi. now rewrite E in Hi.
  - specialize (Hmax i Hi). lia.
Qed.

(** Below 2^63 - 1 numpy's addition is the addition of [Z]. *)
Lemma int64_wrap_small : forall z,
  -9223372036854775808 <= z < 9223372036854775808 -> int64_wrap z = z.
Proof.
  intros z Hz. unfold int64_wrap. rewrite Z.mod_small by lia. lia.
Qed.

Lemma nuevo_id_int64_agrees : forall df,
  Forall id_in_range (ids df) ->
  App.nuevo_id_int64 df = App.nuevo_id df.
Proof.
  intros df Hr. unfold App.nuevo_id_int64, App.nuevo_id.
  destruct (negb (empty df) && has_column "id" df) eqn:G; [| reflexivity].
  apply int64_wrap_small.
  assert (Hne : map col_id (filas df) <> []).
  { apply andb_true_iff in G. destruct G as [G _].
    apply negb_true_iff in G. intros E. apply map_eq_nil in E.
    now apply (empty_false_rows df G). }
  destruct (Series_max_spec _ Hne) as [Hin _].
  rewrite Forall_forall in Hr. specialize (Hr _ Hin).
  unfold id_in_range in Hr. lia.
Qed.

(** Where the two part: on the ids 1 and 2^63 - 1 numpy's sum comes out as
    -2^63. *)
Lemma nuevo_id_int64_wraps :
  App.nuevo_id_int64
    (mkDF App.schema
          [mkFila 1 "" "a" "" (PStr "x") "Neutro" 0 0 0 1;
           mkFila 9223372036854775807 "" "b" "" (PStr "y") "Neutro" 0 0 0 1])
  = -9223372036854775808.
Proof. reflexivity. Qed.

Variable translate : string -> exc string.
Variable polarity_scores : string -> exc Scores.
Variable now : string.

(** C1, as amended.  On a table whose ids leave room for one more (each
    from -2^63 up to, but not including, 2^63 - 1), when the file can be
    written, [agregar_comentario] succeeds and the table loaded afterwards is
    the old one followed by one new row.  The id of that row is 1 when the
    table had no row, and otherwise the largest id of the table plus 1,
    which is also what the int64 addition of numpy gives; it is therefore
    greater than every id of the table, and differs from any id [d],
    deleted or not, for which the table still holds an id at least as
    large.  An id [d] is assigned exactly when the table is empty and [d] is
    1, or the largest id of the table is [d - 1]: this is when an id that
    was deleted comes back. *)
Theorem agregar_comentario_assigns_next_id :
  forall comentario nombre email w df,
  App.cargar_dataset w = (Ok df, w) ->
  well_formed df ->
  Forall id_in_range (ids df) ->
  writable w = true ->
  exists r w' df' fila,
    App.agregar_comentario translate polarity_scores now
                           comentario nombre email w
    = (Ok (true, Some r), w')
    /\ App.cargar_dataset w' = (Ok df', w')
    /\ filas df' = filas df ++ [fila]
    /\ col_comentario fila = comentario
    /\ (filas df = [] -> col_id fila = 1)
    /\ (filas df <> [] ->
        exists top, In top (ids df)
                    /\ (forall i, In i (ids df) -> i <= top)
                    /\ col_id fila = top + 1)
    /\ (forall i, In i (ids df) -> i < col_id fila)
    /\ (forall d i, In i (ids df) -> d <= i -> col_id fila <> d)
    /\ col_id fila = App.nuevo_id_int64 df
    /\ (forall d,
        col_id fila = d
        <-> (filas df = [] /\ d = 1)
            \/ (exists top, In top (ids df)
                            /\ (forall i, In i (ids df) -> i <= top)
                            /\ d = top + 1)).
Proof.
  intros comentario nombre email w df Hload Hwf Hrange Hw.
  pose proof (loaded_of_run _ _ Hload) as Hdf.
  destruct (agregar_comentario_run translate polarity_scores now
              comentario nombre email w)
    as (r & w1 & _ & _ & _ & _ & E).
  rewrite Hw, <- Hdf in E.
  do 4 eexists. split; [exact E |].
  split; [now rewrite cargar_dataset_run |].
  cbn [disk loaded App.concat filas App.fila_de col_id col_comentario].
  split; [reflexivity |]. split; [reflexivity |].
  destruct (nuevo_id_spec df Hwf) as [H1 H2].
  split; [exact H1 |]. split; [exact H2 |].
  split; [intros i Hi; now apply nuevo_id_fresh |].
  split.
  { intros d i Hi Hd Heq. change (App.nuevo_id df = d) in Heq.
    pose proof (nuevo_id_fresh df i Hwf Hi). lia. }
  split; [symmetry; now apply nuevo_id_int64_agrees |].
  intros d. split.
  - intros Hd. change (App.nuevo_id df = d) in Hd. subst d.
    destruct (filas df) as [| r0 rows] eqn:Erows.
    + left. split; [reflexivity | now apply H1].
    + right. destruct H2 as (top & Hin & Hmax & Htop); [discriminate |].
      exists top. repeat split; assumption.
  - intros [[Hnil ->] | (top & Hin & Hmax & ->)]; [now apply H1 |].
    destruct H2 as (top' & Hin' & Hmax' & ->).
    + intros Hnil. unfold ids in Hin. now rewrite Hnil in Hin.
    + pose proof (Hmax _ Hin'). pose proof (Hmax' _ Hin).
      cbn [App.fila_de col_id]. lia.
Qed.

End Ids.

(* ====================================================================== *)
(** ** What every reachable table satisfies                                 *)
(* ====================================================================== *)

Section Invariant.

Lemma NoDup_snoc : forall (l : list Z) x,
  NoDup l -> ~ In x l -> NoDup (l ++ [x]).
Proof.
  induction l as [| a l IH]; intros x Hnd Hx; simpl.
  - constructor; [auto | constructor].
  - inversion Hnd as [| y ys Ha Hnd']; subst.
    constructor.
    + intros H. apply in_app_or in H. destruct H as [H | [H | []]].
      * contradiction.
      * apply Hx. now left.
    + apply IH; [exact Hnd' |]. intros H. apply Hx. now right.
Qed.

Lemma loaded_ok : forall d,
  disk_ok d ->
  columns (loaded d) = App.schema
  /\ Forall (fun r => In (col_sentimiento r) labels) (filas (loaded d))
  /\ NoDup (ids (loaded d)).
Proof.
  intros [| | | df] H; simpl in *; try contradiction; try exact H;
    repeat split; constructor.
Qed.

Lemma schema_well_formed : forall df,
  columns df = App.schema -> well_formed df.
Proof. intros df H _. exact H. Qed.

Lemma concat_ok : forall df fila,
  columns df = App.schema ->
  Forall (fun r => In (col_sentimiento r) labels) (filas df) ->
  NoDup (ids df) ->
  In (col_sentimiento fila) labels ->
  col_id fila = App.nuevo_id df ->
  disk_ok (Csv (App.concat df fila)).
Proof.
  intros df fila Hc Hl Hnd Hf Hid. unfold disk_ok, App.concat.
  cbn [columns filas]. repeat split.
  - unfold has_column. rewrite Hc. reflexivity.
  - apply Forall_app. split; [exact Hl | now constructor].
  - unfold ids. cbn [filas]. rewrite map_app. apply NoDup_snoc; [exact Hnd |].
    intros Hin. rewrite Hid in Hin.
    pose proof (nuevo_id_fresh df _ (schema_well_formed df Hc) Hin). lia.
Qed.

Lemma drop_id_ok : forall id df,
  disk_ok (Csv df) -> disk_ok (Csv (drop_id id df)).
Proof.
  intros id df (Hc & Hl & Hnd). unfold disk_ok, drop_id. cbn [columns filas].
  repeat split.
  - exact Hc.
  - rewrite Forall_forall in *. intros r Hr. apply filter_In in Hr.
    apply Hl. tauto.
  - unfold ids. cbn [filas]. now apply filter_ids_NoDup.
Qed.

(** Every file the application can produce carries the ten columns, labels
    among the three categories, and ids without duplicates. *)
Lemma reachable_disk_ok : forall w, reachable w -> disk_ok (disk w).
Proof.
  induction 1 as [wr | wr | w wr _ IH
                  | translate polarity_scores now w _ IH
                  | translate polarity_scores now comentario nombre email w _ IH
                  | admin id w _ IH]; try exact I; try exact IH.
  - destruct (inicializar_dataset_run translate polarity_scores now w)
      as (datos & w' & _ & Hd & Hw & Hids & Hall & E).
    rewrite E.
    destruct (negb (path_exists (disk w)) || negb (getsize_pos (disk w)));
      [| exact IH].
    destruct (writable w); cbn [snd disk]; [| now rewrite Hd].
    repeat split; [exact Hall |].
    unfold ids. cbn [filas]. rewrite Hids.
    repeat constructor; simpl; intuition discriminate.
  - destruct (agregar_comentario_run translate polarity_scores now
                comentario nombre email w)
      as (r & w1 & _ & Hd & Hw & Hl & E).
    rewrite E. destruct (writable w); cbn [snd disk]; [| now rewrite Hd].
    destruct (loaded_ok _ IH) as (Hc & Hall & Hnd).
    apply concat_ok; auto.
  - destruct admin; [| exact IH].
    rewrite delete_comment_run.
    destruct (negb (empty (loaded (disk w))) && has_column "id" (loaded (disk w)))
      eqn:G; [| exact IH].
    destruct (writable w); cbn [snd disk]; [| exact IH].
    destruct (disk w) as [| | | df] eqn:Ed; simpl in G; try discriminate.
    cbn [loaded]. now apply drop_id_ok.
Qed.

Lemma counts_partition : forall rows,
  Forall (fun r => In (col_sentimiento r) labels) rows ->
  length (filter (fun r => String.eqb (col_sentimiento r) "Positivo") rows)
  + length (filter (fun r => String.eqb (col_sentimiento r) "Negativo") rows)
  + length (filter (fun r => String.eqb (col_sentimiento r) "Neutro") rows)
  = length rows.
Proof.
  induction 1 as [| r rows Hr _ IH]; [reflexivity |].
  cbn [filter].
  destruct Hr as [E | [E | [E | []]]]; rewrite <- E; simpl; lia.
Qed.

(** C10.  On every reachable table the aggregator returns statistics, and
    the three counts add up to the total: each stored label is one of
    Positivo, Negativo and Neutro, also when the analysis fell back to its
    neutral default. *)
Theorem reachable_counts_add_up : forall w,
  reachable w ->
  exists st,
    App.obtener_estadisticas w = (Ok st, w)
    /\ positivos st + negativos st + neutros st = total st
    /\ (forall df r, disk w = Csv df -> In r (filas df) ->
        In (col_sentimiento r) labels).
Proof.
  intros w Hr. pose proof (reachable_disk_ok w Hr) as Hok.
  destruct (loaded_ok _ Hok) as (Hc & Hall & _).
  unfold App.obtener_estadisticas, bind. rewrite cargar_dataset_run.
  assert (Hrows : forall df r, disk w = Csv df -> In r (filas df) ->
                               In (col_sentimiento r) labels).
  { intros df r Ed Hin. rewrite Ed in Hall. cbn [loaded] in Hall.
    rewrite Forall_forall in Hall. now apply Hall. }
  destruct (empty (loaded (disk w))).
  - eexists. split; [reflexivity |]. split; [reflexivity | exact Hrows].
  - unfold has_column at 1. rewrite Hc. cbn [App.schema existsb String.eqb
      Ascii.eqb Bool.eqb orb negb].
    eexists. split; [reflexivity |]. split; [| exact Hrows].
    cbn [positivos negativos neutros total]. unfold value_count.
    now apply counts_partition.
Qed.

End Invariant.

(* ====================================================================== *)
(** ** Failures during a submission                                         *)
(* ====================================================================== *)

Section Submission.

Variable translate : string -> exc string.
Variable polarity_scores : string -> exc Scores.
Variable now : string.



End Submission.

(* ====================================================================== *)
(** ** The two analysis entry points                                        *)
(* ====================================================================== *)

Section TwoEntryPoints.

Variable translate : string -> exc string.
Variable polarity_scores : string -> exc Scores.

(** C2, as amended.  On an empty or non-string input both entry points
    return the neutral scores and label.  On a text they return the very
    same dictionary whenever they take the same decision about translating
    (the text has no stop word inside, or has more than one token) and the
    text that goes to the scorer is one [limpiar_texto] leaves as it is. *)
Theorem analizar_sentimiento_agree_on_clean_text : forall comentario w,
  (truthy comentario = false \/ isinstance_str comentario = false ->
   exists r1 r2,
     App.analizar_sentimiento translate polarity_scores comentario w
     = (Ok r1, w)
     /\ Analysis.analizar_sentimiento translate polarity_scores comentario w
        = (Ok r2, w)
     /\ scores_of r1 = (0%Q, 1%Q, 0%Q, 0%Q, "Neutro")
     /\ scores_of r2 = scores_of r1)
  /\ (forall s,
      comentario = PStr s ->
      tiene_espanol s = false \/ 1 < length (Text.split s) ->
      (forall t w', App.traducir_es_en translate (PStr s) w = (Ok (PStr t), w')
                    -> Analysis.limpiar_texto (PStr t) = t) ->
      Analysis.analizar_sentimiento translate polarity_scores comentario w
      = App.analizar_sentimiento translate polarity_scores comentario w).
Proof.
  intros comentario w. split.
  - intros H.
    assert (G : negb (truthy comentario) || negb (isinstance_str comentario)
                = true).
    { destruct H as [H | H]; rewrite H; [reflexivity | apply orb_true_r]. }
    unfold App.analizar_sentimiento, Analysis.analizar_sentimiento,
      try_except. rewrite G.
    do 2 eexists. repeat split.
  - intros s -> Hdec Hclean.
    unfold App.analizar_sentimiento, Analysis.analizar_sentimiento,
      try_except, bind.
    cbn [truthy isinstance_str negb orb].
    destruct (String.eqb_spec s "") as [-> | Hs]; cbn [negb orb];
      [reflexivity |].
    revert Hclean.
    rewrite traducir_es_en_str, analysis_traducir_es_en_str.
    assert (Hne : negb (String.eqb s "") = true).
    { destruct (String.eqb_spec s ""); [contradiction | reflexivity]. }
    rewrite Hne. cbn [andb].
    assert (Hsame : tiene_espanol s && (1 <? length (Text.split s))
                    = tiene_espanol s).
    { destruct Hdec as [-> | Hlen]; [reflexivity |].
      apply Nat.ltb_lt in Hlen. rewrite Hlen. apply andb_true_r. }
    rewrite Hsame.
    destruct (tiene_espanol s).
    + destruct (translate s) as [t | e]; intros Hclean;
        unfold App.analyzer_polarity_scores;
        rewrite (Hclean _ _ eq_refl); reflexivity.
    + intros Hclean. unfold App.analyzer_polarity_scores.
      rewrite (Hclean _ _ eq_refl). reflexivity.
Qed.

End TwoEntryPoints.

(* ====================================================================== *)
(** ** Concrete runs                                                        *)
(* ====================================================================== *)

Section Runs.

Import Samples Worlds MoreSamples MoreWorlds.

(** C1, the claim as written fails: the store holds the ids 1 and 2, the
    administrator deletes the row 2, and the next comment appended
    receives the id 2 again. *)
Lemma id_reused_after_delete :
  ids (loaded (disk w12)) = [1; 2]%Z
  /\ ids (loaded (disk w12_deleted)) = [1]%Z
  /\ ids (loaded (disk w12_appended)) = [1; 2]%Z
  /\ map col_comentario (filas (loaded (disk w12_appended)))
     = [PStr "bus"; PStr "new comment"].
Proof. vm_compute. repeat split. Qed.

(** C2, the claim as written fails: with a scorer that reacts to
    exclamation marks, [app.py] scores "good!" as it stands (Positivo) and
    [smartcities_analysis.py] scores what [limpiar_texto] leaves of it,
    "good" (Neutro). *)
Lemma analizar_sentimiento_entry_points_differ :
  exists r1 r2,
    fst (App.analizar_sentimiento translate_down scorer_bang
           (PStr "good!") w0) = Ok r1
    /\ fst (Analysis.analizar_sentimiento translate_down scorer_bang
              (PStr "good!") w0) = Ok r2
    /\ Analysis.limpiar_texto (PStr "good!") = "good"
    /\ sentimiento r1 = "Positivo"
    /\ sentimiento r2 = "Neutro"
    /\ ~ (compound r1 == compound r2)%Q.
Proof.
  do 2 eexists. repeat split; try reflexivity.
  vm_compute. discriminate.
Qed.


(** C9, the claim as written fails.  On a store in which two rows carry
    the id 2, and which has the ten columns and can be written, deleting the
    id 2 removes both rows: the row count goes from 3 to 1.  On the
    read-only store with the ids 1 and 2, deleting the id 7, which no row
    has, is answered with the error page and code 500: the file is
    rewritten whenever the table has rows, also when nothing matched. *)
Lemma delete_comment_not_exactly_one_row :
  (ids (loaded (disk w225)) = [2; 2; 5]%Z
   /\ columns (loaded (disk w225)) = App.schema
   /\ writable w225 = true
   /\ fst (App.delete_comment true 2 w225) = Ok (Redirect "admin_dashboard")
   /\ ids (loaded (disk (snd (App.delete_comment true 2 w225)))) = [5]%Z)
  /\ (ids (loaded (disk w12_readonly)) = [1; 2]%Z
      /\ exists message,
           fst (App.delete_comment true 7 w12_readonly)
           = Ok (ErrorPage message 500)).
Proof.
  split; [repeat split |].
  split; [reflexivity |]. eexists. reflexivity.
Qed.

(** The sample store has rows and the ten columns. *)
Lemma frame12_well_formed : well_formed (loaded (disk w12)).
Proof. intros _. reflexivity. Defined.

(** Its ids 1 and 2 leave room for many more. *)
Lemma frame12_in_range : Forall id_in_range (ids (loaded (disk w12))).
Proof.
  unfold id_in_range. cbn.
  repeat (apply Forall_cons; [lia |]). apply Forall_nil.
Defined.

(** On the store with the ids 1 and 2 the next comment gets the id 3. *)
Lemma agregar_comentario_assigns_next_id_witness :
  exists r w' df' fila,
    App.agregar_comentario translate_up scorer_neutral t0
                           (PStr "new comment") "Eva" "" w12
    = (Ok (true, Some r), w')
    /\ App.cargar_dataset w' = (Ok df', w')
    /\ filas df' = filas (loaded (disk w12)) ++ [fila]
    /\ (col_id fila = 3)%Z.
Proof.
  destruct (agregar_comentario_assigns_next_id
              translate_up scorer_neutral t0 (PStr "new comment") "Eva" ""
              w12 (loaded (disk w12)) eq_refl frame12_well_formed
              frame12_in_range eq_refl)
    as (r & w' & df' & fila & H1 & H2 & H3 & _ & _ & H6 & _).
  exists r, w', df', fila. repeat split; try assumption.
  destruct H6 as (top & Hin & Hmax & ->); [discriminate |].
  pose proof (Hmax 2%Z (or_intror (or_introl eq_refl))) as H.
  destruct Hin as [<- | [<- | []]]; [exfalso; apply H; reflexivity |].
  reflexivity.
Defined.

(** Deleting the id 2 from the store with the ids 1 and 2 leaves one row. *)
Lemma delete_comment_removes_one_row_witness :
  exists w' df',
    App.delete_comment true 2 w12 = (Ok (Redirect "admin_dashboard"), w')
    /\ App.cargar_dataset w' = (Ok df', w')
    /\ S (length (filas df')) = 2.
Proof.
  assert (Hnd : NoDup (ids (loaded (disk w12)))).
  { repeat constructor; simpl; intuition discriminate. }
  destruct (delete_comment_removes_one_row
              2 w12 (loaded (disk w12)) eq_refl frame12_well_formed Hnd
              eq_refl)
    as (w' & df' & H1 & H2 & H3 & _).
  exists w', df'. repeat split; try assumption.
  destruct H3 as (before & r & after & _ & _ & _ & H);
    [right; left; reflexivity | exact H].
Defined.

(** The counts add up on the seeded store with one more comment. *)
Lemma reachable_counts_add_up_witness :
  exists st,
    App.obtener_estadisticas w_seeded = (Ok st, w_seeded)
    /\ positivos st + negativos st + neutros st = total st.
Proof.
  destruct (reachable_counts_add_up w_seeded) as (st & H1 & H2 & _).
  - apply reach_agregar, reach_inicializar, reach_no_file.
  - exists st. split; assumption.
Defined.


(** Both entry points agree on "good bus" and on [None]. *)
Lemma analizar_sentimiento_agree_on_clean_text_witness :
  Analysis.analizar_sentimiento translate_down scorer_bang
                                (PStr "good bus") w0
  = App.analizar_sentimiento translate_down scorer_bang (PStr "good bus") w0
  /\ exists r1 r2,
       App.analizar_sentimiento translate_down scorer_bang PNone w0
       = (Ok r1, w0)
       /\ Analysis.analizar_sentimiento translate_down scorer_bang PNone w0
          = (Ok r2, w0)
       /\ scores_of r2 = scores_of r1.
Proof.
  split.
  - apply (proj2 (analizar_sentimiento_agree_on_clean_text
                    translate_down scorer_bang (PStr "good bus") w0)
             "good bus" eq_refl).
    + left. reflexivity.
    + intros t w' H. vm_compute in H. injection H as <- _. reflexivity.
  - destruct (proj1 (analizar_sentimiento_agree_on_clean_text
                       translate_down scorer_bang PNone w0)
                (or_introl eq_refl))
      as (r1 & r2 & H1 & H2 & _ & H4).
    exists r1, r2. repeat split; assumption.
Defined.

(** The statistics of the store with two rows, and of no file at all. *)
Lemma obtener_estadisticas_mean_witness :
  (exists st,
      fst (App.obtener_estadisticas w12) = Ok st
      /\ total st = 2
      /\ (promedio_compound st * inject_Z 2 == 6 # 10)%Q)
  /\ (exists st,
         fst (Analysis.obtener_estadisticas w0) = Ok st
         /\ total st = 0 /\ promedio_compound st = 0%Q).
Proof.
  split.
  - destruct (proj1 (obtener_estadisticas_mean w12 (loaded (disk w12)))
                eq_refl) as [[_ H] _].
    destruct (H eq_refl eq_refl eq_refl) as (st & E & Ht & _ & Hm).
    exists st. split; [exact E |]. split; [exact Ht |].
    rewrite Ht in Hm. exact Hm.
  - destruct (proj2 (obtener_estadisticas_mean w0 (mkDF Analysis.schema []))
                eq_refl) as [[H _] _].
    destruct (H eq_refl) as (st & E & Ht & _ & _ & _ & Hm).
    exists st. repeat split; assumption.
Defined.

(** The translator is down: "el bus" comes back as it went in. *)
Lemma traducir_es_en_never_raises_witness :
  exists v w',
    App.traducir_es_en translate_down (PStr "el bus") w0 = (Ok v, w')
    /\ v = PStr "el bus".
Proof.
  destruct (proj1 (traducir_es_en_never_raises translate_down
                     (PStr "el bus") w0))
    as (v & w' & H1 & H2 & _).
  exists v, w'. split; [exact H1 |].
  apply (H2 "el bus" "ConnectionError"); reflexivity.
Defined.

End Runs.

(* ====================================================================== *)
(** ** Further properties of the analysis                                   *)
(* ====================================================================== *)

Section AnalysisProperties.

Variable translate : string -> exc string.
Variable polarity_scores : string -> exc Scores.

Lemma analizar_not_text : forall comentario w,
  isinstance_str comentario = false \/ truthy comentario = false ->
  App.analizar_sentimiento translate polarity_scores comentario w
  = (Ok (App.neutral (or_empty comentario) (or_empty comentario)), w)
  /\ Analysis.analizar_sentimiento translate polarity_scores comentario w
     = (Ok (mkResultado comentario comentario 0 1 0 0 "Neutro"), w).
Proof.
  intros comentario w H.
  assert (G : negb (truthy comentario) || negb (isinstance_str comentario)
              = true).
  { destruct H as [H | H]; rewrite H; [apply orb_true_r | reflexivity]. }
  unfold App.analizar_sentimiento, Analysis.analizar_sentimiento, try_except.
  rewrite G. split; reflexivity.
Qed.

(** The analysis of [app.py] on a non-empty text, by cases on the services. *)
Lemma analizar_text : forall s w,
  s <> "" ->
  exists t w',
    App.traducir_es_en translate (PStr s) w = (Ok (PStr t), w')
    /\ App.analizar_sentimiento translate polarity_scores (PStr s) w
       = (Ok (match polarity_scores t with
              | Ok sc =>
                  mkResultado (PStr s) (PStr t) (s_neg sc) (s_neu sc)
                              (s_pos sc) (s_compound sc)
                              (App.clasificar_sentimiento (s_compound sc))
              | Raise _ => App.neutral (PStr s) (PStr s)
              end), w').
Proof.
  intros s w Hs.
  unfold App.analizar_sentimiento, try_except, bind.
  cbn [truthy isinstance_str negb orb].
  destruct (String.eqb_spec s "") as [E | _]; [contradiction |].
  cbn [negb orb]. rewrite traducir_es_en_str.
  destruct (_ && _); [destruct (translate s) as [t | e] |];
    do 2 eexists; (split; [reflexivity |]);
    unfold App.analyzer_polarity_scores;
    match goal with
    | |- context [polarity_scores ?t] => destruct (polarity_scores t)
    end; reflexivity.
Qed.

Lemma analysis_analizar_text : forall s w,
  s <> "" ->
  exists t w',
    Analysis.traducir_es_en translate (PStr s) w = (Ok (PStr t), w')
    /\ Analysis.analizar_sentimiento translate polarity_scores (PStr s) w
       = (Ok (match polarity_scores (Analysis.limpiar_texto (PStr t)) with
              | Ok sc =>
                  mkResultado (PStr s) (PStr t) (s_neg sc) (s_neu sc)
                              (s_pos sc) (s_compound sc)
                              (Analysis.clasificar_sentimiento (s_compound sc))
              | Raise _ => mkResultado (PStr s) (PStr s) 0 1 0 0 "Neutro"
              end), w').
Proof.
  intros s w Hs.
  unfold Analysis.analizar_sentimiento, try_except, bind.
  cbn [truthy isinstance_str negb orb].
  destruct (String.eqb_spec s "") as [E | _]; [contradiction |].
  cbn [negb orb]. rewrite analysis_traducir_es_en_str.
  destruct (_ && _); [destruct (translate s) as [t | e] |];
    do 2 eexists; (split; [reflexivity |]);
    match goal with
    | |- context [polarity_scores ?t] => destruct (polarity_scores t)
    end; reflexivity.
Qed.

Lemma traducir_footprint : forall s w v w',
  App.traducir_es_en translate (PStr s) w = (Ok v, w')
  \/ Analysis.traducir_es_en translate (PStr s) w = (Ok v, w') ->
  analysis_footprint (PStr s) w w'.
Proof.
  intros s w v w' H. unfold analysis_footprint.
  rewrite traducir_es_en_str, analysis_traducir_es_en_str in H.
  destruct H as [H | H];
    destruct (_ && _); injection H as _ <-; repeat split; eauto.
Qed.

(** The label of the dictionary [app.py] returns is the classification of
    its compound score. *)
Lemma analizar_consistent : forall comentario w r w',
  App.analizar_sentimiento translate polarity_scores comentario w = (Ok r, w')
  -> sentimiento r = App.clasificar_sentimiento (compound r).
Proof.
  intros comentario w r w' H.
  destruct (isinstance_str comentario) eqn:Hi.
  2:{ destruct (analizar_not_text comentario w (or_introl Hi)) as [E _].
      rewrite E in H. injection H as <- _. reflexivity. }
  destruct comentario as [| b | z | s]; try discriminate.
  destruct (String.eqb_spec s "") as [-> | Hs].
  { destruct (analizar_not_text (PStr "") w (or_intror eq_refl)) as [E _].
    rewrite E in H. injection H as <- _. reflexivity. }
  destruct (analizar_text s w Hs) as (t & w1 & _ & E).
  rewrite E in H. injection H as <- _.
  destruct (polarity_scores t); reflexivity.
Qed.

(** X1.  Whatever the services answer, both analysis entry points return a
    dictionary (never an exception) whose label is the classification of its
    compound score, also on the fallback paths; they leave the file alone
    and send at most one request to the translator, the comment itself. *)
Theorem analizar_sentimiento_label_matches_compound : forall comentario w,
  (exists r w',
      App.analizar_sentimiento translate polarity_scores comentario w
      = (Ok r, w')
      /\ sentimiento r = App.clasificar_sentimiento (compound r)
      /\ analysis_footprint comentario w w')
  /\ (exists r w',
         Analysis.analizar_sentimiento translate polarity_scores comentario w
         = (Ok r, w')
         /\ sentimiento r = Analysis.clasificar_sentimiento (compound r)
         /\ analysis_footprint comentario w w').
Proof.
  intros comentario w.
  assert (Hnot : forall c, isinstance_str c = false \/ truthy c = false ->
                 (exists r w',
                     App.analizar_sentimiento translate polarity_scores c w
                     = (Ok r, w')
                     /\ sentimiento r = App.clasificar_sentimiento (compound r)
                     /\ analysis_footprint c w w')
                 /\ (exists r w',
                        Analysis.analizar_sentimiento translate
                          polarity_scores c w = (Ok r, w')
                        /\ sentimiento r
                           = Analysis.clasificar_sentimiento (compound r)
                        /\ analysis_footprint c w w')).
  { intros c Hc. destruct (analizar_not_text c w Hc) as [E1 E2].
    rewrite E1, E2. unfold analysis_footprint.
    split; do 2 eexists; (split; [reflexivity |]); repeat split; auto. }
  destruct (isinstance_str comentario) eqn:Hi; [| now apply Hnot; left].
  destruct comentario as [| b | z | s]; try discriminate.
  destruct (String.eqb_spec s "") as [-> | Hs]; [now apply Hnot; right |].
  destruct (analizar_text s w Hs) as (t & w1 & Et & E).
  destruct (analysis_analizar_text s w Hs) as (t' & w1' & Et' & E').
  rewrite E, E'. split; do 2 eexists; (split; [reflexivity |]); split.
  - destruct (polarity_scores t); reflexivity.
  - eapply traducir_footprint. left. exact Et.
  - destruct (polarity_scores (Analysis.limpiar_texto (PStr t')));
      reflexivity.
  - eapply traducir_footprint. right. exact Et'.
Qed.

(** X2.  When the translator raises on a comment, [app.py] scores the
    comment as it was written: the result is the one built from the scores of
    the original text, which is also recorded as the translation. *)
Theorem analizar_sentimiento_translation_fallback : forall s w e sc,
  s <> "" ->
  translate s = Raise e ->
  polarity_scores s = Ok sc ->
  fst (App.analizar_sentimiento translate polarity_scores (PStr s) w)
  = Ok (mkResultado (PStr s) (PStr s) (s_neg sc) (s_neu sc) (s_pos sc)
                    (s_compound sc)
                    (App.clasificar_sentimiento (s_compound sc))).
Proof.
  intros s w e sc Hs Ht Hp.
  destruct (analizar_text s w Hs) as (t & w' & Et & E).
  rewrite E. cbn [fst].
  rewrite traducir_es_en_str, Ht in Et.
  assert (t = s) as ->.
  { destruct (_ && _); injection Et as -> _; reflexivity. }
  now rewrite Hp.
Qed.

End AnalysisProperties.

(* ====================================================================== *)
(** ** Further properties of the store                                      *)
(* ====================================================================== *)

Section StoreProperties.

Local Open Scope Z_scope.


(** One append on a writable file whose table has the ten columns. *)
Lemma agregar_step : forall c w,
  writable w = true ->
  columns (loaded (disk w)) = App.schema ->
  exists fila,
    writable (agregar c w) = true
    /\ columns (loaded (disk (agregar c w))) = App.schema
    /\ table (agregar c w) = table w ++ [fila]
    /\ col_id fila = App.nuevo_id (loaded (disk w))
    /\ col_comentario fila = sub_comentario c
    /\ col_nombre fila
       = (if String.eqb (sub_nombre c) "" then Anonimo else sub_nombre c)
    /\ col_sentimiento fila = App.clasificar_sentimiento (col_compound fila).
Proof.
  intros c w Hw Hc. unfold agregar.
  destruct (agregar_comentario_run (sub_translate c) (sub_polarity_scores c)
              (sub_now c) (sub_comentario c) (sub_nombre c) (sub_email c) w)
    as (r & w1 & Ea & _ & _ & _ & E).
  rewrite E, Hw. cbn [snd writable disk loaded]. unfold table.
  eexists. split; [reflexivity |].
  split; [unfold App.concat, has_column; cbn [columns]; rewrite Hc;
          reflexivity |].
  split; [reflexivity |].
  cbn [App.fila_de col_id col_comentario col_nombre col_sentimiento
       col_compound].
  repeat split. eapply analizar_consistent. exact Ea.
Qed.

Lemma ids_table : forall w, ids (loaded (disk w)) = map col_id (table w).
Proof. reflexivity. Qed.

Lemma nuevo_id_after_range : forall df n,
  columns df = App.schema ->
  ids df = map Z.of_nat (seq 1 n) ->
  App.nuevo_id df = Z.of_nat (S n).
Proof.
  intros df n Hc Hids.
  destruct (nuevo_id_spec df (schema_well_formed df Hc)) as [H0 H1].
  destruct (filas df) as [| r rows] eqn:E.
  - rewrite H0 by reflexivity. unfold ids in Hids. rewrite E in Hids.
    destruct n; [reflexivity | discriminate].
  - destruct H1 as (top & Hin & Hmax & ->); [discriminate |].
    rewrite Hids in Hin, Hmax.
    apply in_map_iff in Hin. destruct Hin as (k & <- & Hk).
    apply in_seq in Hk.
    assert (Hn : In (Z.of_nat n) (map Z.of_nat (seq 1 n))).
    { apply in_map, in_seq. lia. }
    specialize (Hmax _ Hn). lia.
Qed.

Lemma agregar_todos_range : forall l w n,
  writable w = true ->
  columns (loaded (disk w)) = App.schema ->
  ids (loaded (disk w)) = map Z.of_nat (seq 1 n) ->
  ids (loaded (disk (agregar_todos l w)))
  = map Z.of_nat (seq 1 (n + length l))
  /\ map col_comentario (table (agregar_todos l w))
     = map col_comentario (table w) ++ map sub_comentario l.
Proof.
  induction l as [| c l IH]; intros w n Hw Hc Hids; cbn [agregar_todos length].
  - rewrite Nat.add_0_r, app_nil_r. auto.
  - destruct (agregar_step c w Hw Hc)
      as (fila & Hw' & Hc' & Ht & Hid & Hcom & _).
    destruct (IH (agregar c w) (S n) Hw' Hc') as [H1 H2].
    + rewrite ids_table, Ht, map_app, <- ids_table, Hids. cbn [map].
      rewrite Hid, (nuevo_id_after_range _ n Hc Hids).
      rewrite seq_S, map_app. reflexivity.
    + split.
      * rewrite H1. f_equal. f_equal. lia.
      * rewrite H2, Ht, map_app. cbn [map]. rewrite Hcom, <- app_assoc.
        reflexivity.
Qed.

(** X4.  Starting without a file (or with an empty one) that can be
    written, N calls of [agregar_comentario] in a row, whatever the comments
    and whatever the services answer, leave a table whose ids are 1, 2, ...,
    N in this order and whose comments are the N comments in the order of
    the calls. *)
Theorem agregar_todos_numbers_from_one : forall l w,
  disk w = NoFile \/ disk w = EmptyFile ->
  writable w = true ->
  ids (loaded (disk (agregar_todos l w))) = map Z.of_nat (seq 1 (length l))
  /\ map col_comentario (table (agregar_todos l w)) = map sub_comentario l.
Proof.
  intros l w Hd Hw.
  assert (Hl : loaded (disk w) = mkDF App.schema []).
  { destruct Hd as [-> | ->]; reflexivity. }
  destruct (agregar_todos_range l w 0 Hw) as [H1 H2].
  - now rewrite Hl.
  - now rewrite Hl.
  - split; [exact H1 |]. rewrite H2. unfold table. now rewrite Hl.
Qed.

Lemma delete_disk : forall id w,
  writable w = true ->
  negb (empty (loaded (disk w))) && has_column "id" (loaded (disk w)) = true ->
  snd (App.delete_comment true id w)
  = mkWorld (Csv (drop_id id (loaded (disk w)))) true (translated w).
Proof.
  intros id w Hw G. now rewrite delete_comment_run, G, Hw.
Qed.

Lemma delete_noop : forall id w,
  writable w = false
  \/ negb (empty (loaded (disk w))) && has_column "id" (loaded (disk w))
     = false ->
  snd (App.delete_comment true id w) = w.
Proof.
  intros id w H. rewrite delete_comment_run.
  destruct (negb (empty (loaded (disk w))) && has_column "id" (loaded (disk w)));
    [| reflexivity].
  destruct H as [-> | H]; [reflexivity | discriminate].
Qed.

Lemma drop_id_twice : forall a b df,
  drop_id a (drop_id b df) = drop_id b (drop_id a df).
Proof.
  intros a b [cols rows]. unfold drop_id. cbn [columns filas]. f_equal.
  induction rows as [| r rows IH]; [reflexivity |]. cbn [filter].
  destruct (negb (col_id r =? b)) eqn:Eb, (negb (col_id r =? a)) eqn:Ea;
    cbn [filter]; rewrite ?Ea, ?Eb, IH; reflexivity.
Qed.

Lemma drop_id_idem : forall a df, drop_id a (drop_id a df) = drop_id a df.
Proof.
  intros a [cols rows]. unfold drop_id. cbn [columns filas]. f_equal.
  induction rows as [| r rows IH]; [reflexivity |]. cbn [filter].
  destruct (negb (col_id r =? a)) eqn:Ea; cbn [filter]; rewrite ?Ea, IH;
    reflexivity.
Qed.

(** Two deletions in a row on a table that passes the guard. *)
Lemma delete_delete : forall a b w,
  writable w = true ->
  negb (empty (loaded (disk w))) && has_column "id" (loaded (disk w)) = true ->
  snd (App.delete_comment true b (snd (App.delete_comment true a w)))
  = mkWorld (Csv (drop_id b (drop_id a (loaded (disk w))))) true
            (translated w).
Proof.
  intros a b w Hw G. rewrite (delete_disk a w Hw G).
  set (w1 := mkWorld _ true (translated w)).
  destruct (negb (empty (loaded (disk w1))) && has_column "id" (loaded (disk w1)))
    eqn:G1.
  - now rewrite (delete_disk b w1 eq_refl G1).
  - rewrite (delete_noop b w1 (or_intror G1)). unfold w1. do 2 f_equal.
    unfold w1 in G1. cbn [disk loaded] in G1.
    apply andb_true_iff in G. destruct G as [_ Hid].
    assert (Hid1 : has_column "id" (drop_id a (loaded (disk w))) = true)
      by exact Hid.
    rewrite Hid1, andb_true_r in G1. apply negb_false_iff in G1.
    destruct (loaded (disk w)) as [cols rows]. unfold drop_id in *.
    cbn [columns filas] in *. unfold empty in G1. cbn [columns filas] in G1.
    destruct (filter _ rows) as [| r l]; [reflexivity |].
    destruct cols; [discriminate Hid | discriminate G1].
Qed.

(** X5.  Deleting composes like a filter.  Running [delete_comment] twice
    with the same id leaves the world the first run left, and two deletions
    with different ids leave the same world in either order; this holds for
    every state of the file, writable or not. *)
Theorem delete_comment_idempotent_and_commutes : forall a b w,
  snd (App.delete_comment true a (snd (App.delete_comment true a w)))
  = snd (App.delete_comment true a w)
  /\ snd (App.delete_comment true b (snd (App.delete_comment true a w)))
     = snd (App.delete_comment true a (snd (App.delete_comment true b w))).
Proof.
  intros a b w.
  destruct (writable w) eqn:Hw.
  2:{ repeat rewrite (delete_noop _ w (or_introl Hw)). auto. }
  destruct (negb (empty (loaded (disk w))) && has_column "id" (loaded (disk w)))
    eqn:G.
  2:{ repeat rewrite (delete_noop _ w (or_intror G)). auto. }
  split.
  - rewrite (delete_delete a a w Hw G), drop_id_idem.
    now rewrite (delete_disk a w Hw G).
  - rewrite (delete_delete a b w Hw G), (delete_delete b a w Hw G).
    now rewrite drop_id_twice.
Qed.

(** X6.  Appending a comment and then deleting the id it received gives
    back the rows the table had, in their order: on a writable file whose
    table has the ten columns and ids that leave room for one more (each
    from -2^63 up to, but not including, 2^63 - 1, so that the id numpy
    computes is the largest id plus 1), the two operations undo each
    other. *)
Theorem agregar_then_delete_restores : forall c w,
  writable w = true ->
  columns (loaded (disk w)) = App.schema ->
  Forall id_in_range (ids (loaded (disk w))) ->
  App.nuevo_id_int64 (loaded (disk w)) = App.nuevo_id (loaded (disk w))
  /\ table (snd (App.delete_comment true
                                    (App.nuevo_id_int64 (loaded (disk w)))
                                    (agregar c w)))
     = table w.
Proof.
  intros c w Hw Hc Hrange.
  pose proof (nuevo_id_int64_agrees _ Hrange) as Hagree.
  split; [exact Hagree |]. rewrite Hagree.
  destruct (agregar_step c w Hw Hc) as (fila & Hw' & Hc' & Ht & Hid & _).
  assert (G : negb (empty (loaded (disk (agregar c w))))
              && has_column "id" (loaded (disk (agregar c w))) = true).
  { rewrite well_formed_guard by now apply schema_well_formed.
    fold (table (agregar c w)). rewrite Ht.
    destruct (table w); reflexivity. }
  rewrite (delete_disk _ _ Hw' G). unfold table at 1.
  cbn [disk loaded drop_id filas]. fold (table (agregar c w)).
  rewrite Ht, filter_app. cbn [filter].
  rewrite Hid, Z.eqb_refl. cbn [negb]. rewrite app_nil_r.
  apply filter_absent. intros Hin.
  pose proof (nuevo_id_fresh _ _ (schema_well_formed _ Hc) Hin). lia.
Qed.

End StoreProperties.

(* ====================================================================== *)
(** ** Seeding, and what every stored row satisfies                         *)
(* ====================================================================== *)

Section Seeding.

Local Open Scope Z_scope.

Lemma construir_datos_rows :
  forall translate polarity_scores now l i w datos w',
  App.construir_datos translate polarity_scores now i l w = (Ok datos, w') ->
  Forall2 (seeded now) l datos.
Proof.
  intros translate polarity_scores now.
  induction l as [| [comentario nombre] l IH]; intros i w datos w' H.
  - injection H as <- _. constructor.
  - cbn [App.construir_datos] in H. unfold bind in H.
    destruct (analizar_sentimiento_run translate polarity_scores now
                (PStr comentario) w) as (r & w1 & E & _).
    rewrite E in H.
    destruct (construir_datos_run translate polarity_scores now l (S i) w1)
      as (rest & w2 & E2 & _).
    rewrite E2 in H. injection H as <- _.
    constructor; [| eapply IH; exact E2].
    unfold seeded. cbn. repeat split.
    eapply analizar_consistent. exact E.
Qed.

Lemma ejemplos_named : Forall (fun e => snd e <> "") App.ejemplos.
Proof. repeat constructor; discriminate. Qed.

Lemma seeded_rows_ok : forall now l datos,
  Forall2 (seeded now) l datos ->
  Forall (fun e => snd e <> "") l ->
  Forall (fun r => 1 <= col_id r) datos ->
  Forall row_ok datos.
Proof.
  induction 1 as [| e r l datos (_ & Hn & _ & _ & Hl) _ IH];
    intros Hnames Hids; [constructor |].
  inversion Hnames; inversion Hids; subst.
  constructor; [| now apply IH].
  repeat split; [exact Hl | congruence | assumption].
Qed.

Lemma Forall2_map_eq : forall {A B C} (R : A -> B -> Prop)
                              (f : A -> C) (g : B -> C) l l',
  Forall2 R l l' -> (forall a b, R a b -> g b = f a) -> map g l' = map f l.
Proof.
  intros A B C R f g l l' H HR. induction H as [| a b l l' Hab _ IH];
    [reflexivity |].
  cbn [map]. now rewrite IH, (HR a b Hab).
Qed.

(** X7.  On a machine without the file (or with an empty one) that can be
    written, [inicializar_dataset] writes the ten seeds: ids 1 to 10, the
    comments and names of the list in its order, each label matching its
    score.  Run again, with any services, it changes nothing: the seeds are
    written once. *)
Theorem inicializar_dataset_seeds_once :
  forall translate polarity_scores now w,
  disk w = NoFile \/ disk w = EmptyFile ->
  writable w = true ->
  exists datos w',
    App.inicializar_dataset translate polarity_scores now w = (Ok tt, w')
    /\ disk w' = Csv (mkDF App.schema datos)
    /\ map col_id datos = [1; 2; 3; 4; 5; 6; 7; 8; 9; 10]
    /\ map col_comentario datos = map (fun e => PStr (fst e)) App.ejemplos
    /\ map col_nombre datos = map snd App.ejemplos
    /\ Forall row_ok datos
    /\ (forall translate' polarity_scores' now',
        App.inicializar_dataset translate' polarity_scores' now' w'
        = (Ok tt, w')).
Proof.
  intros translate polarity_scores now w Hd Hw.
  destruct (inicializar_dataset_run translate polarity_scores now w)
    as (datos & w1 & Ec & _ & _ & Hids & _ & E).
  assert (G : negb (path_exists (disk w)) || negb (getsize_pos (disk w))
              = true) by (destruct Hd as [-> | ->]; reflexivity).
  rewrite G, Hw in E.
  pose proof (construir_datos_rows _ _ _ _ _ _ _ _ Ec) as Hrows.
  exists datos. eexists. split; [exact E |]. split; [reflexivity |].
  split; [exact Hids |].
  split; [eapply Forall2_map_eq; [exact Hrows | now intros a b (H & _)] |].
  split; [eapply Forall2_map_eq; [exact Hrows | now intros a b (_ & H & _)] |].
  split.
  - eapply seeded_rows_ok; [exact Hrows | exact ejemplos_named |].
    apply Forall_forall. intros r Hr.
    apply (in_map col_id) in Hr. rewrite Hids in Hr.
    simpl in Hr. intuition lia.
  - intros translate' polarity_scores' now'. reflexivity.
Qed.

(** X8.  [inicializar_dataset] leaves an existing, non-empty file exactly
    as it is, also when that file cannot be parsed; and when the file is
    missing or empty but cannot be written, the exception of [to_csv]
    leaves the function (nothing catches it) and the file is as before. *)
Theorem inicializar_dataset_guard : forall translate polarity_scores now w,
  (disk w = Corrupt \/ (exists df, disk w = Csv df) ->
   App.inicializar_dataset translate polarity_scores now w = (Ok tt, w))
  /\ (disk w = NoFile \/ disk w = EmptyFile ->
      writable w = false ->
      exists e w',
        App.inicializar_dataset translate polarity_scores now w
        = (Raise e, w')
        /\ disk w' = disk w).
Proof.
  intros translate polarity_scores now w.
  destruct (inicializar_dataset_run translate polarity_scores now w)
    as (datos & w1 & _ & Hd & _ & _ & _ & E).
  rewrite E. split.
  - intros [H | [df H]]; rewrite H; reflexivity.
  - intros H Hw. rewrite Hw.
    assert (G : negb (path_exists (disk w)) || negb (getsize_pos (disk w))
                = true) by (destruct H as [-> | ->]; reflexivity).
    rewrite G. do 2 eexists. split; [reflexivity | exact Hd].
Qed.

Lemma nuevo_id_positive : forall df,
  columns df = App.schema ->
  Forall (fun r => 1 <= col_id r) (filas df) ->
  1 <= App.nuevo_id df.
Proof.
  intros df Hc Hall.
  destruct (nuevo_id_spec df (schema_well_formed df Hc)) as [H0 H1].
  destruct (filas df) as [| r rows] eqn:E; [rewrite H0; [lia | reflexivity] |].
  destruct H1 as (top & Hin & _ & ->); [discriminate |].
  unfold ids in Hin. rewrite E in Hin.
  apply in_map_iff in Hin. destruct Hin as (r' & <- & Hr').
  rewrite Forall_forall in Hall. specialize (Hall r' Hr'). lia.
Qed.

Lemma row_ok_ids : forall rows,
  Forall row_ok rows -> Forall (fun r => 1 <= col_id r) rows.
Proof.
  intros rows H. eapply Forall_impl; [| exact H]. now intros r (_ & _ & Hr).
Qed.

Lemma reachable_rows_ok : forall w, reachable w -> Forall row_ok (table w).
Proof.
  induction 1 as [wr | wr | w wr _ IH
                  | translate polarity_scores now w Hr IH
                  | translate polarity_scores now comentario nombre email w
                      Hr IH
                  | admin id w _ IH];
    try (constructor; fail); try exact IH.
  - destruct (inicializar_dataset_run translate polarity_scores now w)
      as (datos & w' & Ec & Hd & _ & Hids & _ & E).
    rewrite E.
    destruct (negb (path_exists (disk w)) || negb (getsize_pos (disk w)));
      [| exact IH].
    destruct (writable w); cbn [snd]; [| unfold table; now rewrite Hd].
    unfold table. cbn [disk loaded filas].
    eapply seeded_rows_ok;
      [eapply construir_datos_rows; exact Ec | exact ejemplos_named |].
    apply Forall_forall. intros r Hin.
    apply (in_map col_id) in Hin. rewrite Hids in Hin.
    simpl in Hin. intuition lia.
  - destruct (agregar_comentario_run translate polarity_scores now
                comentario nombre email w)
      as (r & w1 & Ea & Hd & _ & _ & E).
    rewrite E.
    destruct (writable w); cbn [snd]; [| unfold table; now rewrite Hd].
    unfold table. cbn [disk loaded App.concat filas].
    apply Forall_app. split; [exact IH |].
    constructor; [| constructor].
    unfold row_ok, App.fila_de.
    cbn [col_sentimiento col_compound col_nombre col_id].
    split; [eapply analizar_consistent; exact Ea |].
    split; [destruct (String.eqb_spec nombre ""); [discriminate | assumption] |].
    destruct (loaded_ok _ (reachable_disk_ok w Hr)) as (Hc & _ & _).
    apply nuevo_id_positive; [exact Hc | now apply row_ok_ids].
  - destruct admin; [| exact IH].
    destruct (writable w) eqn:Hw;
      [| now rewrite (delete_noop id w (or_introl Hw))].
    destruct (negb (empty (loaded (disk w))) && has_column "id" (loaded (disk w)))
      eqn:G; [| now rewrite (delete_noop id w (or_intror G))].
    rewrite (delete_disk id w Hw G). unfold table.
    cbn [disk loaded drop_id filas].
    unfold table in IH. rewrite Forall_forall in *.
    intros r Hin. apply filter_In in Hin. apply IH. tauto.
Qed.

(** X9.  In every table the application can produce (seeding, appends and
    deletions, with any services), each row has a label that is the
    classification of its compound score, a non-empty name and an id of at
    least 1, and no two rows share an id. *)
Theorem reachable_rows_well_formed : forall w,
  reachable w ->
  Forall row_ok (table w) /\ NoDup (map col_id (table w)).
Proof.
  intros w Hr. split; [now apply reachable_rows_ok |].
  destruct (loaded_ok _ (reachable_disk_ok w Hr)) as (_ & _ & Hnd).
  exact Hnd.
Qed.

End Seeding.

(* ====================================================================== *)
(** ** Further properties of the statistics                                 *)
(* ====================================================================== *)

Section StatisticsProperties.

Local Open Scope Q_scope.

Lemma sum_Q_app : forall l x, sum_Q (l ++ [x]) == sum_Q l + x.
Proof.
  induction l as [| a l IH]; intros x; simpl.
  - ring.
  - rewrite IH. ring.
Qed.

Lemma value_count_app : forall label cols rows r,
  value_count label (mkDF cols (rows ++ [r]))
  = (value_count label (mkDF cols rows)
     + if String.eqb (col_sentimiento r) label then 1 else 0)%nat.
Proof.
  intros label cols rows r. unfold value_count. cbn [filas].
  rewrite filter_app, length_app. cbn [filter].
  destruct (String.eqb (col_sentimiento r) label); reflexivity.
Qed.

(** The statistics of a table that has the ten columns. *)
Lemma obtener_estadisticas_schema : forall w,
  columns (loaded (disk w)) = App.schema ->
  exists st,
    App.obtener_estadisticas w = (Ok st, w)
    /\ total st = length (table w)
    /\ positivos st = value_count "Positivo" (loaded (disk w))
    /\ negativos st = value_count "Negativo" (loaded (disk w))
    /\ neutros st = value_count "Neutro" (loaded (disk w))
    /\ promedio_compound st * inject_Z (Z.of_nat (length (table w)))
       == sum_Q (map col_compound (table w)).
Proof.
  intros w Hc. unfold App.obtener_estadisticas, bind.
  rewrite cargar_dataset_run. unfold table.
  destruct (loaded (disk w)) as [cols rows] eqn:E. cbn [columns] in Hc.
  subst cols. destruct rows as [| r rows].
  - eexists. split; [reflexivity |]. repeat split.
  - eexists. split; [reflexivity |]. do 4 (split; [reflexivity |]).
    cbn [promedio_compound filas has_column columns App.schema existsb
         String.eqb Ascii.eqb Bool.eqb orb].
    rewrite Series_mean_arithmetic, <- (length_map col_compound).
    apply mean_times_length. discriminate.
Qed.

(** X10.  After a comment is appended to a writable table that has the ten
    columns, the statistics move by that one row: the total grows by one,
    the counter of the label of the new row grows by one and the two others
    stay, and the new mean times the new total is the old mean times the old
    total plus the compound score of the new row. *)
Theorem obtener_estadisticas_after_agregar : forall c w,
  writable w = true ->
  columns (loaded (disk w)) = App.schema ->
  exists st st' fila,
    App.obtener_estadisticas w = (Ok st, w)
    /\ App.obtener_estadisticas (agregar c w) = (Ok st', agregar c w)
    /\ table (agregar c w) = table w ++ [fila]
    /\ total st' = S (total st)
    /\ positivos st'
       = (positivos st
          + if String.eqb (col_sentimiento fila) "Positivo" then 1 else 0)%nat
    /\ negativos st'
       = (negativos st
          + if String.eqb (col_sentimiento fila) "Negativo" then 1 else 0)%nat
    /\ neutros st'
       = (neutros st
          + if String.eqb (col_sentimiento fila) "Neutro" then 1 else 0)%nat
    /\ promedio_compound st' * inject_Z (Z.of_nat (total st'))
       == promedio_compound st * inject_Z (Z.of_nat (total st))
          + col_compound fila.
Proof.
  intros c w Hw Hc.
  destruct (agregar_step c w Hw Hc) as (fila & _ & Hc' & Ht & _).
  destruct (obtener_estadisticas_schema w Hc)
    as (st & E & Htot & Hp & Hn & Hu & Hm).
  destruct (obtener_estadisticas_schema (agregar c w) Hc')
    as (st' & E' & Htot' & Hp' & Hn' & Hu' & Hm').
  exists st, st', fila.
  assert (Hdf : loaded (disk (agregar c w))
                = mkDF App.schema (table w ++ [fila])).
  { destruct (loaded (disk (agregar c w))) as [cols rows] eqn:El.
    unfold table in Ht. rewrite El in Ht. cbn in Ht, Hc'. now subst. }
  assert (Hdf0 : loaded (disk w) = mkDF App.schema (table w)).
  { unfold table. destruct (loaded (disk w)). cbn in *. now subst. }
  rewrite Hdf, value_count_app, <- Hdf0 in Hp', Hn', Hu'.
  rewrite Ht in Htot', Hm'. rewrite length_app, Nat.add_comm in Htot'.
  cbn [length Nat.add] in Htot'.
  repeat split; try assumption; try congruence.
  rewrite Htot', Htot. rewrite length_app, map_app in Hm'.
  cbn [length map] in Hm'. rewrite Nat.add_comm in Hm'. cbn [Nat.add] in Hm'.
  rewrite sum_Q_app in Hm'. now rewrite Hm', Hm.
Qed.

Lemma counts_bounded : forall rows,
  (length (filter (fun r => String.eqb (col_sentimiento r) "Positivo") rows)
   + length (filter (fun r => String.eqb (col_sentimiento r) "Negativo") rows)
   + length (filter (fun r => String.eqb (col_sentimiento r) "Neutro") rows)
   <= length rows)%nat.
Proof.
  induction rows as [| r rows IH]; [reflexivity |]. cbn [filter].
  destruct (String.eqb_spec (col_sentimiento r) "Positivo") as [E | _];
    [rewrite E |];
    destruct (String.eqb_spec (col_sentimiento r) "Negativo") as [E' | _];
    try rewrite E';
    destruct (String.eqb_spec (col_sentimiento r) "Neutro") as [E'' | _];
    try rewrite E''; simpl; try discriminate; lia.
Qed.

(** X11.  On a file that is missing, of size zero, unparsable, or holds a
    table whose compound scores are numbers (as in every file [to_csv] wrote
    for the application), [obtener_estadisticas] leaves the world as it is,
    and either raises [KeyError], which happens exactly on a non-empty table
    without the column [sentimiento], or returns statistics in which the
    three counters together never exceed the total: rows with another label
    are counted in the total only. *)
Theorem obtener_estadisticas_counts_bounded : forall w,
  (empty (loaded (disk w)) = false
   /\ has_column "sentimiento" (loaded (disk w)) = false
   /\ App.obtener_estadisticas w = (Raise "KeyError", w))
  \/ ((empty (loaded (disk w)) = true
       \/ has_column "sentimiento" (loaded (disk w)) = true)
      /\ exists st,
          App.obtener_estadisticas w = (Ok st, w)
          /\ (positivos st + negativos st + neutros st <= total st)%nat
          /\ (total st <= length (table w))%nat).
Proof.
  intros w. unfold App.obtener_estadisticas, bind.
  rewrite cargar_dataset_run. unfold table.
  destruct (empty (loaded (disk w))) eqn:He.
  - right. split; [now left |]. eexists. split; [reflexivity |].
    cbn. split; lia.
  - destruct (has_column "sentimiento" (loaded (disk w))) eqn:Hs; cbn [negb].
    + right. split; [now right |]. eexists. split; [reflexivity |].
      cbn [positivos negativos neutros total]. unfold value_count.
      split; [apply counts_bounded | lia].
    + left. repeat split.
Qed.

Lemma sum_Q_bounds : forall l,
  Forall (fun x => -1 <= x /\ x <= 1) l ->
  - inject_Z (Z.of_nat (length l)) <= sum_Q l
  /\ sum_Q l <= inject_Z (Z.of_nat (length l)).
Proof.
  induction 1 as [| x l [Hlo Hhi] _ [IHlo IHhi]].
  - cbn. split; apply Qle_refl.
  - cbn [length sum_Q fold_right]. fold (sum_Q l).
    rewrite Nat2Z.inj_succ, <- Z.add_1_l, inject_Z_plus.
    split.
    + setoid_replace (- (inject_Z 1 + inject_Z (Z.of_nat (length l))))
        with (-1 + - inject_Z (Z.of_nat (length l))) by (cbn; ring).
      now apply Qplus_le_compat.
    + now apply Qplus_le_compat.
Qed.

(** X12.  When every stored compound score lies between -1 and 1, so does
    the mean [obtener_estadisticas] returns, on an empty table as well. *)
Theorem obtener_estadisticas_mean_in_range : forall w st,
  App.obtener_estadisticas w = (Ok st, w) ->
  Forall (fun r => -1 <= col_compound r /\ col_compound r <= 1) (table w) ->
  -1 <= promedio_compound st /\ promedio_compound st <= 1.
Proof.
  intros w st E Hall. unfold App.obtener_estadisticas, bind in E.
  rewrite cargar_dataset_run in E. unfold table in Hall.
  assert (H0 : -1 <= 0 /\ 0 <= 1) by (split; discriminate).
  destruct (empty (loaded (disk w))) eqn:He.
  { injection E as <-. exact H0. }
  destruct (has_column "sentimiento" (loaded (disk w))); [| discriminate E].
  injection E as <-. cbn [promedio_compound].
  destruct (has_column "compound" (loaded (disk w))); [| exact H0].
  pose proof (empty_false_rows _ He) as Hne.
  set (l := map col_compound (filas (loaded (disk w)))).
  assert (Hl : Forall (fun x => -1 <= x /\ x <= 1) l).
  { unfold l. apply Forall_forall. intros x Hx.
    apply in_map_iff in Hx. destruct Hx as (r & <- & Hr).
    rewrite Forall_forall in Hall. now apply Hall. }
  destruct (sum_Q_bounds l Hl) as [Hlo Hhi].
  assert (Hpos : 0 < inject_Z (Z.of_nat (length l))).
  { change 0 with (inject_Z 0). rewrite <- Zlt_Qlt.
    unfold l. rewrite length_map.
    destruct (filas (loaded (disk w))); [congruence | cbn; lia]. }
  rewrite Series_mean_arithmetic. unfold arithmetic_mean. split.
  - apply Qle_shift_div_l; [exact Hpos |].
    setoid_replace (-1 * inject_Z (Z.of_nat (length l)))
      with (- inject_Z (Z.of_nat (length l))) by ring.
    exact Hlo.
  - apply Qle_shift_div_r; [exact Hpos |].
    now rewrite Qmult_1_l.
Qed.

End StatisticsProperties.

(* ====================================================================== *)
(** ** Properties of the views                                              *)
(* ====================================================================== *)

Section ViewProperties.

Import Views.

(** [submit_comment] on a valid comment, from what [agregar_comentario]
    does. *)
Lemma submit_comment_valid : forall translate polarity_scores now form w,
  let comentario := Text.strip (App.form_get (App.form_comentario form) "") in
  let nombre := Text.strip (App.form_get (App.form_nombre form) Anonimo) in
  let email := Text.strip (App.form_get (App.form_email form) "") in
  comentario <> "" -> String.length comentario <= 1000 ->
  exists r w1,
    App.analizar_sentimiento translate polarity_scores (PStr comentario) w
    = (Ok r, w1)
    /\ disk w1 = disk w
    /\ App.submit_comment translate polarity_scores now form w
       = if writable w
         then (Ok (ResultPage comentario nombre r),
               mkWorld
                 (Csv (App.concat
                         (loaded (disk w))
                         (App.fila_de now (App.nuevo_id (loaded (disk w)))
                            (if String.eqb nombre "" then Anonimo else nombre)
                            email (PStr comentario) r)))
                 true (translated w1))
         else (Ok (ErrorPage "Error al guardar el comentario" 500), w1).
Proof.
  intros translate polarity_scores now form w comentario nombre email He Hl.
  unfold App.submit_comment, try_except, bind.
  fold comentario. fold nombre. fold email.
  destruct (String.eqb_spec comentario "") as [E | _]; [contradiction |].
  destruct (Nat.ltb_spec 1000 (String.length comentario)) as [H | _]; [lia |].
  destruct (agregar_comentario_run translate polarity_scores now
              (PStr comentario) nombre email w)
    as (r & w1 & Ea & Hd & _ & _ & E).
  exists r, w1. split; [exact Ea |]. split; [exact Hd |].
  rewrite E. destruct (writable w); reflexivity.
Qed.

Lemma submit_comment_invalid : forall translate polarity_scores now form w,
  let comentario := Text.strip (App.form_get (App.form_comentario form) "") in
  comentario = "" \/ 1000 < String.length comentario ->
  exists message,
    App.submit_comment translate polarity_scores now form w
    = (Ok (ErrorPage message 400), w).
Proof.
  intros translate polarity_scores now form w comentario H.
  unfold App.submit_comment, try_except, bind. fold comentario.
  destruct (String.eqb_spec comentario "") as [E | Hn];
    [eexists; reflexivity |].
  destruct (Nat.ltb_spec 1000 (String.length comentario)) as [Hl | Hl];
    [eexists; reflexivity |].
  destruct H; [contradiction | lia].
Qed.


Lemma obtener_estadisticas_world : forall w,
  snd (App.obtener_estadisticas w) = w.
Proof.
  intros w. unfold App.obtener_estadisticas, bind.
  rewrite cargar_dataset_run.
  destruct (empty _); [reflexivity |].
  destruct (negb _); reflexivity.
Qed.

Lemma admin_dashboard_world : forall sv s w,
  snd (admin_dashboard sv s w) = w.
Proof.
  intros sv s w. unfold admin_dashboard, column.
  destruct (negb (logged_in s)); [reflexivity |].
  unfold try_except, bind. rewrite cargar_dataset_run.
  destruct (empty _); [reflexivity |].
  destruct (has_column "sentimiento" _); [| reflexivity]. cbn [ret].
  destruct (0 <? _).
  - destruct (plot sv _); [| reflexivity].
    destruct (has_column "fecha" _); reflexivity.
  - cbn [ret]. destruct (has_column "fecha" _); reflexivity.
Qed.

Lemma export_data_world : forall sv s format w,
  snd (export_data sv s format w) = w.
Proof.
  intros sv s format w. unfold export_data.
  destruct (negb (logged_in s)); [reflexivity |].
  unfold try_except, bind. rewrite cargar_dataset_run.
  destruct (String.eqb format "csv"); [reflexivity |].
  destruct (String.eqb format "excel"); [| reflexivity].
  destruct (to_excel sv _); reflexivity.
Qed.

Lemma submit_comment_table : forall translate polarity_scores now form w,
  exists newer,
    table (snd (App.submit_comment translate polarity_scores now form w))
    = (table w ++ newer)%list.
Proof.
  intros translate polarity_scores now form w.
  set (comentario := Text.strip (App.form_get (App.form_comentario form) "")).
  destruct (String.eqb_spec comentario "") as [E | Hn].
  { destruct (submit_comment_invalid translate polarity_scores now form w
                (or_introl E)) as [m ->].
    exists []. now rewrite app_nil_r. }
  destruct (Nat.ltb_spec 1000 (String.length comentario)) as [Hl | Hl].
  { destruct (submit_comment_invalid translate polarity_scores now form w
                (or_intror Hl)) as [m ->].
    exists []. now rewrite app_nil_r. }
  destruct (submit_comment_valid translate polarity_scores now form w Hn Hl)
    as (r & w1 & _ & Hd & E).
  rewrite E. destruct (writable w); cbn [snd].
  - eexists. reflexivity.
  - exists []. unfold table. now rewrite Hd, app_nil_r.
Qed.

(** One request that does not present the password, in a session that is
    not logged in. *)
Lemma handle_without_password : forall sv req s w,
  logged_in s = false ->
  is_admin_login req = false ->
  logged_in (snd (fst (handle sv req s w))) = false
  /\ exists newer, table (snd (handle sv req s w)) = (table w ++ newer)%list.
Proof.
  intros sv req s w Hs Hreq.
  assert (Hsame : forall w', w' = w ->
                  exists newer, table w' = (table w ++ newer)%list).
  { intros w' ->. exists []. now rewrite app_nil_r. }
  destruct req as [| | | form | method password | | format | id |];
    cbn [handle fst snd].
  - split; [exact Hs | apply Hsame]. unfold index, bind.
    pose proof (obtener_estadisticas_world w) as H.
    destruct (App.obtener_estadisticas w) as [[st | e] w']; exact H.
  - split; [exact Hs | now apply Hsame].
  - split; [exact Hs | apply Hsame]. unfold get_stats, bind.
    pose proof (obtener_estadisticas_world w) as H.
    destruct (App.obtener_estadisticas w) as [[st | e] w']; exact H.
  - split; [exact Hs | apply submit_comment_table].
  - unfold admin_login. destruct method; cbn [fst snd].
    + split; [exact Hs | now apply Hsame].
    + cbn [is_admin_login] in Hreq.
      destruct password as [p |]; [rewrite Hreq |]; cbn [fst snd];
        (split; [exact Hs | now apply Hsame]).
  - split; [exact Hs | apply Hsame, admin_dashboard_world].
  - split; [exact Hs | apply Hsame, export_data_world].
  - split; [exact Hs |]. rewrite Hs. now apply Hsame.
  - split; [reflexivity | now apply Hsame].
Qed.

(** X14.  Without the administrator's password nothing is ever removed:
    after any sequence of requests that starts in a session that is not
    logged in and contains no login with the password, whatever the services
    answer, the session is still not logged in and the table is the one it
    was, followed by the rows appended since. *)
Theorem serve_without_password_keeps_rows : forall history s w,
  logged_in s = false ->
  Forall (fun p => is_admin_login (snd p) = false) history ->
  logged_in (fst (serve history s w)) = false
  /\ exists newer, table (snd (serve history s w)) = (table w ++ newer)%list.
Proof.
  induction history as [| [sv req] history IH]; intros s w Hs Hall.
  - split; [exact Hs |]. exists []. cbn. now rewrite app_nil_r.
  - inversion Hall as [| p l Hreq Hrest]; subst. cbn [snd] in Hreq.
    destruct (handle_without_password sv req s w Hs Hreq)
      as [Hs' [newer Ht]].
    cbn [serve].
    destruct (handle sv req s w) as [[v s'] w'] eqn:E. cbn [fst snd] in *.
    destruct (IH s' w' Hs' Hrest) as [Hs'' [newer' Ht']].
    split; [exact Hs'' |].
    exists (newer ++ newer')%list. now rewrite Ht', Ht, app_assoc.
Qed.

(** X15.  Only [submit_comment] and the administrator's [delete_comment]
    write: any other request, and a deletion asked for in a session that is
    not logged in, leaves the file, its permissions and the log of
    translation requests exactly as they were, whatever the libraries
    answer and also when the view ends in an error. *)
Theorem handle_read_only : forall sv req s w,
  (forall form, req <> ReqSubmit form) ->
  (forall id, req = ReqDelete id -> logged_in s = false) ->
  snd (handle sv req s w) = w.
Proof.
  intros sv req s w Hsub Hdel.
  destruct req as [| | | form | method password | | format | id |];
    cbn [handle fst snd].
  - unfold index, bind. pose proof (obtener_estadisticas_world w) as H.
    destruct (App.obtener_estadisticas w) as [[st | e] w']; exact H.
  - reflexivity.
  - unfold get_stats, bind. pose proof (obtener_estadisticas_world w) as H.
    destruct (App.obtener_estadisticas w) as [[st | e] w']; exact H.
  - exfalso. now apply (Hsub form).
  - destruct (admin_login sv method password s). reflexivity.
  - apply admin_dashboard_world.
  - apply export_data_world.
  - now rewrite (Hdel id eq_refl).
  - reflexivity.
Qed.

End ViewProperties.

Section AdminProperties.

Import Views.

Local Open Scope list_scope.

Lemma StronglySorted_app_cross : forall {A} (R : A -> A -> Prop) l1 l2,
  StronglySorted R (l1 ++ l2) ->
  forall a b, In a l1 -> In b l2 -> R a b.
Proof.
  intros A R l1 l2. induction l1 as [| x l1 IH]; intros H a b Ha Hb;
    [contradiction |].
  cbn in H. inversion H as [| y l Hs Hall]; subst.
  destruct Ha as [<- | Ha]; [| now apply IH].
  rewrite Forall_forall in Hall. apply Hall, in_or_app. now right.
Qed.

(** [admin_dashboard] for the administrator on a table with rows and with
    the two columns it reads. *)
Lemma admin_dashboard_run : forall sv s w,
  logged_in s = true ->
  empty (loaded (disk w)) = false ->
  has_column "sentimiento" (loaded (disk w)) = true ->
  has_column "fecha" (loaded (disk w)) = true ->
  admin_dashboard sv s w
  = (match plot sv (value_counts sv (map col_sentimiento (table w))) with
     | Ok png =>
         Ok (Dashboard (Some png) (length (table w))
               (value_counts sv (map col_sentimiento (table w)))
               (firstn 10 (sort_values_fecha_desc sv (table w)))
               (firstn 20 (sort_values_fecha_desc sv (table w))))
     | Raise e => Ok (Basic (ErrorPage ("Error en dashboard: " ++ e) 500))
     end, w).
Proof.
  intros sv s w Hs He Hc Hf. unfold admin_dashboard, column, table.
  rewrite Hs. cbn [negb]. unfold try_except, bind.
  rewrite cargar_dataset_run, He, Hc. cbn [ret].
  pose proof (empty_false_rows _ He) as Hne.
  destruct (filas (loaded (disk w))) as [| r rows] eqn:E; [congruence |].
  cbn [length Nat.ltb Nat.leb].
  destruct (plot sv _); [| reflexivity].
  rewrite Hf. reflexivity.
Qed.

(** X16.  For the administrator, on a table with rows, when the figure can
    be drawn and [sort_values] returns the rows sorted by date, latest
    first, the dashboard shows the number of rows and lists the latest
    comments: the list of 10 is the head of the preview of 20, both hold rows
    of the table only, as many as there are up to 10 and 20, and no row left
    out of the list of 10 is later than a row in it.  When the figure cannot
    be drawn the view answers with code 500 instead.  The world is unchanged
    in both cases. *)
Theorem admin_dashboard_lists_latest : forall sv s w,
  logged_in s = true ->
  empty (loaded (disk w)) = false ->
  columns (loaded (disk w)) = App.schema ->
  Permutation (sort_values_fecha_desc sv (table w)) (table w) ->
  StronglySorted (fun a b => String.leb (col_fecha b) (col_fecha a) = true)
                 (sort_values_fecha_desc sv (table w)) ->
  (forall e,
      plot sv (value_counts sv (map col_sentimiento (table w))) = Raise e ->
      admin_dashboard sv s w
      = (Ok (Basic (ErrorPage ("Error en dashboard: " ++ e) 500)), w))
  /\ (forall png,
         plot sv (value_counts sv (map col_sentimiento (table w))) = Ok png ->
         exists stats ultimos preview,
           admin_dashboard sv s w
           = (Ok (Dashboard (Some png) (length (table w)) stats
                            ultimos preview), w)
           /\ ultimos = firstn 10 preview
           /\ length ultimos = Nat.min 10 (length (table w))
           /\ length preview = Nat.min 20 (length (table w))
           /\ (forall r, In r preview -> In r (table w))
           /\ (forall r r',
                  In r ultimos -> In r' (table w) -> ~ In r' ultimos ->
                  String.leb (col_fecha r') (col_fecha r) = true)).
Proof.
  intros sv s w Hs He Hc Hperm Hsorted.
  assert (Hrun := admin_dashboard_run sv s w Hs He).
  unfold has_column in Hrun. rewrite Hc in Hrun.
  specialize (Hrun eq_refl eq_refl).
  split.
  - intros e Hp. now rewrite Hrun, Hp.
  - intros png Hp. rewrite Hrun, Hp. do 3 eexists.
    split; [reflexivity |].
    set (sorted := sort_values_fecha_desc sv (table w)) in *.
    assert (Hlen : length sorted = length (table w))
      by now apply Permutation_length.
    split; [| split; [| split; [| split]]].
    + rewrite firstn_firstn. reflexivity.
    + now rewrite length_firstn, Hlen.
    + now rewrite length_firstn, Hlen.
    + intros r Hr. apply (Permutation_in _ Hperm).
      rewrite <- (firstn_skipn 20 sorted). apply in_or_app. now left.
    + intros r r' Hr Hr' Hout.
      apply (Permutation_in _ (Permutation_sym Hperm)) in Hr'.
      rewrite <- (firstn_skipn 10 sorted) in Hr', Hsorted.
      apply in_app_or in Hr'. destruct Hr' as [Hr' | Hr']; [contradiction |].
      exact (StronglySorted_app_cross _ _ _ Hsorted r r' Hr Hr').
Qed.

(** X17.  What a visitor submits is what the administrator exports: after
    a valid comment was stored, the CSV export of a logged-in session is the
    table as it was with one more row at the end, which holds the comment
    after [strip]. *)
Theorem export_after_submit : forall sv s form w,
  let comentario := Text.strip (App.form_get (App.form_comentario form) "") in
  comentario <> "" -> String.length comentario <= 1000 ->
  writable w = true ->
  logged_in s = true ->
  exists name df fila,
    fst (fst (handle sv (ReqExport "csv") s
                     (snd (handle sv (ReqSubmit form) s w))))
    = Ok (Download "text/csv" name df)
    /\ filas df = table w ++ [fila]
    /\ col_comentario fila = PStr comentario.
Proof.
  intros sv s form w comentario Hn Hl Hw Hs. cbn [handle fst snd].
  destruct (submit_comment_valid (translate sv) (polarity_scores sv) (now sv)
              form w Hn Hl) as (r & w1 & _ & _ & E).
  rewrite E, Hw. cbn [snd]. unfold export_data. rewrite Hs. cbn [negb].
  unfold try_except, bind. rewrite cargar_dataset_run.
  cbn [String.eqb Ascii.eqb Bool.eqb ret fst disk loaded].
  do 3 eexists. split; [reflexivity |]. split; reflexivity.
Qed.

(** X18.  The administrator's path works end to end: from any session, a
    login with the password followed by a deletion leaves the session
    logged in and, on a writable file whose table has rows and the column
    [id], leaves the table without the rows of that id and with the others
    in their order. *)
Theorem login_then_delete : forall sv sv' id s w,
  writable w = true ->
  negb (empty (loaded (disk w))) && has_column "id" (loaded (disk w)) = true ->
  let end_ := serve [(sv, ReqLogin POST (Some ADMIN_PASSWORD));
                     (sv', ReqDelete id)] s w in
  logged_in (fst end_) = true
  /\ table (snd end_)
     = filter (fun r => negb (Z.eqb (col_id r) id)) (table w).
Proof.
  intros sv sv' id s w Hw G end_. unfold end_.
  cbn [serve handle]. unfold admin_login, ADMIN_PASSWORD.
  cbn [String.eqb Ascii.eqb Bool.eqb logged_in admin_logged_in fst snd].
  rewrite (delete_disk id w Hw G). split; reflexivity.
Qed.

End AdminProperties.

(* ====================================================================== *)
(** ** Further properties of the normalizer and of the cleaning             *)
(* ====================================================================== *)

Section NormalizerProperties.

Local Open Scope list_scope.

Variable translate : string -> exc string.

Lemma cons_neq : forall {A} (x : A) l, x :: l <> l.
Proof.
  intros A x l H. apply (f_equal (@length A)) in H. cbn in H. lia.
Qed.

(** X19.  The two copies of [traducir_es_en] do the same (same value, same
    requests to the translator) on a text exactly when the text has more
    than one token or contains no stop word; on a single token that contains
    one, only the copy in [smartcities_analysis.py] calls the translator.
    On values that are not text they always agree. *)
Theorem traducir_es_en_copies_agree : forall texto w,
  (isinstance_str texto = false ->
   Analysis.traducir_es_en translate texto w
   = App.traducir_es_en translate texto w)
  /\ (forall s, texto = PStr s ->
      (Analysis.traducir_es_en translate texto w
       = App.traducir_es_en translate texto w
       <-> 1 < length (Text.split s) \/ tiene_espanol s = false)).
Proof.
  intros texto w. split.
  - intros Hi.
    destruct (traducir_es_en_not_text translate texto w (or_intror Hi))
      as [-> ->]. reflexivity.
  - intros s ->.
    rewrite traducir_es_en_str, analysis_traducir_es_en_str.
    destruct (String.eqb_spec s "") as [-> | Hs]; cbn [negb andb].
    { split; [intros _; right; reflexivity | reflexivity]. }
    destruct (tiene_espanol s); cbn [andb].
    + destruct (Nat.ltb_spec 1 (length (Text.split s))) as [Hl | Hl].
      * split; [intros _; now left | reflexivity].
      * split.
        -- intros H. exfalso. injection H as _ H.
           apply (f_equal translated) in H. exact (cons_neq _ _ H).
        -- intros [H | H]; [lia | discriminate].
    + split; [intros _; now right | reflexivity].
Qed.

(** X20.  A text of more than one token, one of whose lowercase tokens is a
    stop word, is always sent to the translator by [app.py], once, and the
    answer of the translator, when it gives one, is what the normalizer
    returns. *)
Theorem traducir_es_en_translates_spanish : forall s w token,
  1 < length (Text.split s) ->
  In token (Text.split (Text.lower s)) ->
  In token palabras_es ->
  translated (snd (App.traducir_es_en translate (PStr s) w))
  = s :: translated w
  /\ (forall r, translate s = Ok r ->
      fst (App.traducir_es_en translate (PStr s) w) = Ok (PStr r)).
Proof.
  intros s w token Hlen Htok Hpal.
  assert (Hsp : is_spanish_by_tokens s = true).
  { unfold is_spanish_by_tokens. apply andb_true_iff. split.
    - apply existsb_exists. exists token. split; [exact Htok |].
      apply existsb_exists. exists token. split; [exact Hpal |].
      apply String.eqb_refl.
    - now apply Nat.ltb_lt. }
  pose proof (token_check_implies_substring_check s Hsp) as Hc.
  assert (Hs : negb (String.eqb s "") = true).
  { destruct (String.eqb_spec s "") as [-> | _]; [cbn in Hlen; lia |].
    reflexivity. }
  rewrite traducir_es_en_str.
  apply andb_true_iff in Hc. destruct Hc as [Hc1 Hc2].
  rewrite Hs, Hc1, Hc2. cbn [andb fst snd translated].
  split; [reflexivity |]. now intros r ->.
Qed.

End NormalizerProperties.

Section Cleaning.

Local Open Scope list_scope.

Lemma no_double_space_iff : forall l, no_double_space l = true <-> spaces_apart l.
Proof.
  unfold spaces_apart. induction l as [| a [| b rest] IH].
  - split; [intros _ [| x p] q H; discriminate | reflexivity].
  - split; [| reflexivity].
    intros _ [| x [| y p]] q H; discriminate.
  - change (no_double_space (a :: b :: rest))
      with (negb (Ascii.eqb a " " && Ascii.eqb b " ")
            && no_double_space (b :: rest)).
    rewrite andb_true_iff, IH. split.
    + intros [Hab Hrest] [| x p] q H.
      * injection H as -> -> _. discriminate Hab.
      * injection H as _ H. exact (Hrest p q H).
    + intros H. split.
      * destruct (Ascii.eqb_spec a " ") as [-> |]; [| reflexivity].
        destruct (Ascii.eqb_spec b " ") as [-> |]; [| reflexivity].
        exfalso. exact (H [] rest eq_refl).
      * intros p q E. apply (H (a :: p) q). cbn. now rewrite E.
Qed.

Lemma spaces_apart_rev : forall l, spaces_apart l -> spaces_apart (rev l).
Proof.
  unfold spaces_apart. intros l H p q E. apply (H (rev q) (rev p)).
  rewrite <- (rev_involutive l), E, rev_app_distr. cbn.
  now rewrite <- !app_assoc.
Qed.

Lemma spaces_apart_suffix : forall p l, spaces_apart (p ++ l) -> spaces_apart l.
Proof.
  unfold spaces_apart. intros p l H p' q E. apply (H (p ++ p') q).
  now rewrite E, app_assoc.
Qed.

(** *** Facts about single characters, by enumeration *)

Lemma clean_char_lower : forall c,
  clean_char c = true -> Text.lower_char c = c.
Proof.
  intros [[] [] [] [] [] [] [] []]; vm_compute; intros H;
    solve [reflexivity | discriminate H].
Qed.

Lemma clean_char_kept : forall c, clean_char c = true -> Text.kept c = true.
Proof.
  intros [[] [] [] [] [] [] [] []]; vm_compute; intros H;
    solve [reflexivity | discriminate H].
Qed.

Lemma clean_char_space : forall c,
  clean_char c = true -> Text.isspace c = true -> c = space.
Proof.
  intros [[] [] [] [] [] [] [] []]; vm_compute; intros H1 H2;
    solve [reflexivity | discriminate H1 | discriminate H2].
Qed.

Lemma kept_clean : forall c,
  Text.kept c = true -> Text.isspace c = false -> clean_char c = true.
Proof.
  intros c Hk Hs. unfold clean_char. rewrite Hk, Hs. apply orb_true_r.
Qed.

Lemma not_space_neq : forall c, Text.isspace c = false -> c <> space.
Proof. intros c H ->. discriminate H. Qed.

(** *** The stages of [limpiar_texto] *)

Lemma keep_only_kept : forall s,
  Forall (fun c => Text.kept c = true) (chars (Text.keep_only Text.kept s)).
Proof.
  induction s as [| c s IH]; cbn; [constructor |].
  destruct (Text.kept c) eqn:E; [constructor |]; assumption.
Qed.

Lemma sub_ws_runs_clean : forall s b,
  Forall (fun c => Text.kept c = true) (chars s) ->
  Forall (fun c => clean_char c = true) (chars (Text.sub_ws_runs b s)).
Proof.
  induction s as [| c s IH]; intros b H; cbn; [constructor |].
  inversion H as [| x l Hc Hrest]; subst.
  destruct (Text.isspace c) eqn:E.
  - destruct b; [now apply IH |].
    constructor; [reflexivity | now apply IH].
  - constructor; [now apply kept_clean | now apply IH].
Qed.

Lemma sub_ws_runs_spaces : forall s b,
  spaces_apart (chars (Text.sub_ws_runs b s))
  /\ (b = true -> forall rest, chars (Text.sub_ws_runs b s) <> space :: rest).
Proof.
  unfold spaces_apart. induction s as [| c s IH]; intros b; cbn [Text.sub_ws_runs].
  - split; [intros [| x p] q H; discriminate | intros _ rest H; discriminate].
  - destruct (Text.isspace c) eqn:E.
    + destruct b.
      * apply IH.
      * destruct (IH true) as [H1 H2]. split; [| discriminate].
        intros [| x p] q H; cbn in H.
        -- injection H as H. exact (H2 eq_refl _ H).
        -- injection H as _ H. exact (H1 p q H).
    + destruct (IH false) as [H1 _]. split.
      * intros [| x p] q H; cbn in H; injection H as Hc H.
        -- exact (not_space_neq c E Hc).
        -- exact (H1 p q H).
      * intros _ rest H. cbn in H. injection H as Hc _.
        exact (not_space_neq c E Hc).
Qed.

(** [lstrip] removes a run of whitespace from the front and leaves a text
    that does not start with whitespace. *)
Lemma lstrip_spec : forall s,
  exists p, chars s = p ++ chars (Text.lstrip s)
            /\ match chars (Text.lstrip s) with
               | [] => True
               | a :: _ => Text.isspace a = false
               end.
Proof.
  induction s as [| c s (p & Hp & Hh)]; [exists []; split; [reflexivity | exact I] |].
  cbn [Text.lstrip]. destruct (Text.isspace c) eqn:E.
  - exists (c :: p). cbn [chars list_ascii_of_string] in *.
    split; [cbn; now f_equal | exact Hh].
  - exists []. split; [reflexivity | exact E].
Qed.

Lemma chars_rev_string : forall s, chars (Text.rev_string s) = rev (chars s).
Proof.
  intros s. unfold chars, Text.rev_string.
  apply list_ascii_of_string_of_list_ascii.
Qed.

Lemma chars_inj : forall s t, chars s = chars t -> s = t.
Proof.
  intros s t H. unfold chars in H.
  rewrite <- (string_of_list_ascii_of_string s),
          <- (string_of_list_ascii_of_string t).
  now rewrite H.
Qed.

(** What [strip] returns: a piece of the text between two runs of
    whitespace, with no whitespace at either end. *)
Lemma strip_spec : forall s,
  exists p q,
    chars s = p ++ chars (Text.strip s) ++ q
    /\ match chars (Text.strip s) with
       | [] => True
       | a :: _ => Text.isspace a = false
       end
    /\ match rev (chars (Text.strip s)) with
       | [] => True
       | a :: _ => Text.isspace a = false
       end.
Proof.
  intros s. unfold Text.strip.
  destruct (lstrip_spec s) as (p & Hp & Hh).
  set (a := Text.lstrip s) in *.
  destruct (lstrip_spec (Text.rev_string a)) as (q & Hq & Hh').
  set (b := Text.lstrip (Text.rev_string a)) in *.
  rewrite chars_rev_string in Hq.
  assert (Ha : chars a = rev (chars b) ++ rev q).
  { rewrite <- (rev_involutive (chars a)), Hq, rev_app_distr. reflexivity. }
  exists p, (rev q). rewrite chars_rev_string.
  split; [now rewrite Hp, Ha |].
  split; [| now rewrite rev_involutive].
  destruct (rev (chars b)) as [| x l] eqn:E; [exact I |].
  rewrite Ha in Hh. exact Hh.
Qed.

Lemma strip_fixed : forall s,
  match chars s with [] => True | a :: _ => Text.isspace a = false end ->
  match rev (chars s) with [] => True | a :: _ => Text.isspace a = false end ->
  Text.strip s = s.
Proof.
  intros s Hh Hl.
  assert (Hfix : forall t,
             match chars t with
             | [] => True
             | a :: _ => Text.isspace a = false
             end -> Text.lstrip t = t).
  { intros [| c t] H; [reflexivity |]. cbn in *. now rewrite H. }
  unfold Text.strip. rewrite (Hfix s Hh).
  rewrite (Hfix (Text.rev_string s)) by now rewrite chars_rev_string.
  apply chars_inj. rewrite !chars_rev_string. apply rev_involutive.
Qed.

Lemma lower_fixed : forall s,
  Forall (fun c => clean_char c = true) (chars s) -> Text.lower s = s.
Proof.
  induction s as [| c s IH]; intros H; [reflexivity |].
  inversion H; subst. cbn. rewrite clean_char_lower by assumption.
  f_equal. now apply IH.
Qed.

Lemma keep_only_fixed : forall s,
  Forall (fun c => clean_char c = true) (chars s) ->
  Text.keep_only Text.kept s = s.
Proof.
  induction s as [| c s IH]; intros H; [reflexivity |].
  inversion H; subst. cbn. rewrite clean_char_kept by assumption.
  f_equal. now apply IH.
Qed.

Lemma sub_ws_runs_fixed : forall s b,
  Forall (fun c => clean_char c = true) (chars s) ->
  spaces_apart (chars s) ->
  (b = true -> forall rest, chars s <> space :: rest) ->
  Text.sub_ws_runs b s = s.
Proof.
  induction s as [| c s IH]; intros b Hc Hn Hb; [reflexivity |].
  inversion Hc as [| x l Hcc Hrest]; subst. cbn [Text.sub_ws_runs].
  assert (Hn' : spaces_apart (chars s)) by exact (spaces_apart_suffix [c] _ Hn).
  destruct (Text.isspace c) eqn:E.
  - pose proof (clean_char_space c Hcc E) as ->.
    destruct b; [exfalso; exact (Hb eq_refl _ eq_refl) |].
    f_equal. apply IH; [assumption | assumption |].
    intros _ rest H. apply (Hn [] rest). cbn. now rewrite <- H.
  - f_equal. apply IH; [assumption | assumption | discriminate].
Qed.

Lemma Forall_middle : forall {A} (P : A -> Prop) p l q,
  Forall P (p ++ l ++ q) -> Forall P l.
Proof.
  intros A P p l q H. apply Forall_app in H. destruct H as [_ H].
  apply Forall_app in H. tauto.
Qed.

Lemma limpiar_texto_str : forall s,
  Analysis.limpiar_texto (PStr s)
  = Text.strip (Text.sub_ws_runs false
                  (Text.keep_only Text.kept (Text.lower s))).
Proof.
  intros s. unfold Analysis.limpiar_texto.
  cbn [truthy isinstance_str negb orb].
  destruct s as [| c s]; reflexivity.
Qed.

Lemma head_not_space : forall l,
  match l with [] => True | a :: _ => Text.isspace a = false end ->
  match l with [] => true | a :: _ => negb (Ascii.eqb a " ") end = true.
Proof.
  intros [| a l] H; [reflexivity |].
  destruct (Ascii.eqb_spec a " ") as [-> |]; [discriminate H | reflexivity].
Qed.

Lemma limpiar_texto_cleaned : forall v,
  cleaned (Analysis.limpiar_texto v) = true.
Proof.
  intros v.
  assert (Hstr : forall s, cleaned (Analysis.limpiar_texto (PStr s)) = true).
  { intros s. rewrite limpiar_texto_str.
    set (u := Text.keep_only Text.kept (Text.lower s)).
    set (t := Text.sub_ws_runs false u).
    pose proof (sub_ws_runs_clean u false (keep_only_kept _)) as Hc.
    destruct (sub_ws_runs_spaces u false) as [Hn _].
    fold t in Hc, Hn.
    destruct (strip_spec t) as (p & q & E & Hh & Hl).
    rewrite E in Hc, Hn.
    unfold cleaned. rewrite !andb_true_iff. repeat split.
    - apply forallb_forall. apply Forall_forall.
      exact (Forall_middle _ _ _ _ Hc).
    - now apply head_not_space.
    - now apply head_not_space.
    - apply no_double_space_iff. apply spaces_apart_suffix in Hn.
      apply spaces_apart_rev in Hn. rewrite rev_app_distr in Hn.
      apply spaces_apart_suffix in Hn. apply spaces_apart_rev in Hn.
      now rewrite rev_involutive in Hn. }
  destruct v as [| b | z | s]; [reflexivity | | | apply Hstr];
    unfold Analysis.limpiar_texto; cbn [isinstance_str negb];
    rewrite orb_true_r; reflexivity.
Qed.

Lemma cleaned_fixed : forall t,
  cleaned t = true -> Analysis.limpiar_texto (PStr t) = t.
Proof.
  intros t H. unfold cleaned in H. rewrite !andb_true_iff in H.
  destruct H as [[[Hc Hh] Hl] Hn].
  assert (Hc' : Forall (fun c => clean_char c = true) (chars t)).
  { apply Forall_forall. now apply forallb_forall. }
  apply no_double_space_iff in Hn.
  assert (Hsp : forall l,
             Forall (fun c => clean_char c = true) l ->
             match l with [] => true | a :: _ => negb (Ascii.eqb a " ") end
             = true ->
             match l with [] => True | a :: _ => Text.isspace a = false end).
  { intros [| a l] Hall Hneg; [exact I |]. inversion Hall; subst.
    destruct (Text.isspace a) eqn:E; [| reflexivity].
    rewrite (clean_char_space a) in Hneg by assumption. discriminate Hneg. }
  rewrite limpiar_texto_str, (lower_fixed t Hc'), (keep_only_fixed t Hc').
  rewrite (sub_ws_runs_fixed t false Hc' Hn) by discriminate.
  apply strip_fixed; apply Hsp; try assumption.
  now apply Forall_rev.
Qed.

(** X21.  [limpiar_texto] returns a text in clean form: only lowercase
    letters, digits, the accented letters of its pattern and single spaces,
    with no space at either end; a value that is not a text gives the empty
    text.  The texts it leaves unchanged are exactly the texts in clean
    form, so cleaning twice is cleaning once. *)
Theorem limpiar_texto_idempotent : forall v,
  cleaned (Analysis.limpiar_texto v) = true
  /\ Analysis.limpiar_texto (PStr (Analysis.limpiar_texto v))
     = Analysis.limpiar_texto v
  /\ (isinstance_str v = false -> Analysis.limpiar_texto v = ""%string)
  /\ (forall t, Analysis.limpiar_texto (PStr t) = t <-> cleaned t = true).
Proof.
  intros v. split; [apply limpiar_texto_cleaned |].
  split; [apply cleaned_fixed, limpiar_texto_cleaned |].
  split.
  - intros H. unfold Analysis.limpiar_texto. rewrite H.
    now rewrite orb_true_r.
  - intros t. split; [| apply cleaned_fixed].
    intros <-. apply limpiar_texto_cleaned.
Qed.

End Cleaning.

(* ====================================================================== *)
(** ** The order of the rows                                                *)
(* ====================================================================== *)

Section RowOrder.

Local Open Scope Z_scope.
Local Open Scope list_scope.

Lemma StronglySorted_snoc : forall (l : list Z) x,
  StronglySorted Z.lt l -> Forall (fun a => a < x) l ->
  StronglySorted Z.lt (l ++ [x]).
Proof.
  induction l as [| a l IH]; intros x Hs Hall; cbn.
  - repeat constructor.
  - inversion Hs as [| y ys Hs' Ha]; subst. inversion Hall; subst.
    constructor; [now apply IH |].
    apply Forall_app. split; [exact Ha | now repeat constructor].
Qed.

Lemma StronglySorted_filter_ids : forall (g : Fila -> bool) rows,
  StronglySorted Z.lt (map col_id rows) ->
  StronglySorted Z.lt (map col_id (filter g rows)).
Proof.
  induction rows as [| r rows IH]; intros Hs; cbn; [constructor |].
  cbn in Hs. inversion Hs as [| y ys Hs' Ha]; subst.
  destruct (g r); cbn; [| now apply IH].
  constructor; [now apply IH |].
  rewrite Forall_forall in *. intros i Hi. apply Ha.
  apply in_map_iff in Hi. destruct Hi as (r' & <- & Hr').
  apply filter_In in Hr'. apply in_map. tauto.
Qed.

(** X22.  In every table the application can produce the ids increase
    strictly from one row to the next: the rows stay in the order in which
    they were appended, and the last row carries the largest id. *)
Theorem reachable_ids_increase : forall w,
  reachable w -> StronglySorted Z.lt (map col_id (table w)).
Proof.
  induction 1 as [wr | wr | w wr _ IH
                  | translate polarity_scores now w Hr IH
                  | translate polarity_scores now comentario nombre email w
                      Hr IH
                  | admin id w _ IH];
    try (constructor; fail); try exact IH.
  - destruct (inicializar_dataset_run translate polarity_scores now w)
      as (datos & w' & _ & Hd & _ & Hids & _ & E).
    rewrite E.
    destruct (negb (path_exists (disk w)) || negb (getsize_pos (disk w)));
      [| exact IH].
    destruct (writable w); cbn [snd]; [| unfold table; now rewrite Hd].
    unfold table. cbn [disk loaded filas]. rewrite Hids.
    repeat constructor.
  - destruct (agregar_comentario_run translate polarity_scores now
                comentario nombre email w)
      as (r & w1 & _ & Hd & _ & _ & E).
    rewrite E.
    destruct (writable w); cbn [snd]; [| unfold table; now rewrite Hd].
    unfold table. cbn [disk loaded App.concat filas]. rewrite map_app.
    apply StronglySorted_snoc; [exact IH |].
    destruct (loaded_ok _ (reachable_disk_ok w Hr)) as (Hc & _ & _).
    apply Forall_forall. intros i Hi. cbn [App.fila_de col_id].
    exact (nuevo_id_fresh _ _ (schema_well_formed _ Hc) Hi).
  - destruct admin; [| exact IH].
    destruct (writable w) eqn:Hw;
      [| now rewrite (delete_noop id w (or_introl Hw))].
    destruct (negb (empty (loaded (disk w))) && has_column "id" (loaded (disk w)))
      eqn:G; [| now rewrite (delete_noop id w (or_intror G))].
    rewrite (delete_disk id w Hw G). unfold table.
    cbn [disk loaded drop_id filas]. now apply StronglySorted_filter_ids.
Qed.

End RowOrder.

(* ====================================================================== *)
(** ** Concrete runs of the further properties                              *)
(* ====================================================================== *)

Section MoreRuns.

Import Samples Worlds ViewSamples Views.

Local Open Scope list_scope.

(** The translator is down and "el bus!" is scored as written. *)
Lemma analizar_sentimiento_translation_fallback_witness :
  exists r,
    fst (App.analizar_sentimiento translate_down scorer_bang
           (PStr "el bus!") w0) = Ok r
    /\ comentario_traducido r = PStr "el bus!"
    /\ sentimiento r = "Positivo".
Proof.
  eexists. split.
  - eapply (analizar_sentimiento_translation_fallback
              translate_down scorer_bang "el bus!" w0 "ConnectionError");
      [discriminate | reflexivity | reflexivity].
  - split; reflexivity.
Defined.

(** Three comments on a machine without file get the ids 1, 2 and 3. *)
Lemma agregar_todos_numbers_from_one_witness :
  ids (loaded (disk (agregar_todos [sub0 "a"; sub0 "b"; sub0 "c"] w0)))
  = [1; 2; 3]%Z.
Proof.
  apply (proj1 (agregar_todos_numbers_from_one
                  [sub0 "a"; sub0 "b"; sub0 "c"] w0
                  (or_introl eq_refl) eq_refl)).
Defined.

(** A comment appended to the store with the ids 1 and 2, then deleted. *)
Lemma agregar_then_delete_restores_witness :
  App.nuevo_id_int64 (loaded (disk w12)) = 3%Z
  /\ table (snd (App.delete_comment true 3 (agregar (sub0 "new") w12)))
     = table w12.
Proof.
  destruct (agregar_then_delete_restores (sub0 "new") w12
              eq_refl eq_refl frame12_in_range) as [H1 H2].
  split; [reflexivity | exact H2].
Defined.

(** Seeding a machine without file. *)
Lemma inicializar_dataset_seeds_once_witness :
  exists datos w',
    App.inicializar_dataset translate_up scorer_bang t0 w0 = (Ok tt, w')
    /\ disk w' = Csv (mkDF App.schema datos)
    /\ map col_id datos = [1; 2; 3; 4; 5; 6; 7; 8; 9; 10]%Z
    /\ App.inicializar_dataset translate_down scorer_broken t0 w' = (Ok tt, w').
Proof.
  destruct (inicializar_dataset_seeds_once translate_up scorer_bang t0 w0
              (or_introl eq_refl) eq_refl)
    as (datos & w' & H1 & H2 & H3 & _ & _ & _ & H7).
  exists datos, w'. repeat split; try assumption. apply H7.
Defined.

(** Seeding leaves an unreadable file alone, and raises on a read-only
    machine without file. *)
Lemma inicializar_dataset_guard_witness :
  App.inicializar_dataset translate_up scorer_bang t0 (mkWorld Corrupt true [])
  = (Ok tt, mkWorld Corrupt true [])
  /\ exists e w',
       App.inicializar_dataset translate_up scorer_bang t0
                               (mkWorld NoFile false [])
       = (Raise e, w')
       /\ disk w' = NoFile.
Proof.
  split.
  - apply (proj1 (inicializar_dataset_guard translate_up scorer_bang t0
                    (mkWorld Corrupt true []))).
    now left.
  - apply (proj2 (inicializar_dataset_guard translate_up scorer_bang t0
                    (mkWorld NoFile false [])));
      [now left | reflexivity].
Defined.

Lemma w_seeded_reachable : reachable w_seeded.
Proof. apply reach_agregar, reach_inicializar, reach_no_file. Defined.

(** The rows of the seeded store with one more comment. *)
Lemma reachable_rows_well_formed_witness :
  Forall row_ok (table w_seeded) /\ NoDup (map col_id (table w_seeded)).
Proof. apply (reachable_rows_well_formed w_seeded w_seeded_reachable). Defined.

Lemma reachable_ids_increase_witness :
  StronglySorted Z.lt (map col_id (table w_seeded)).
Proof. apply (reachable_ids_increase w_seeded w_seeded_reachable). Defined.

(** One more comment on the store with two rows: the total goes to 3. *)
Lemma obtener_estadisticas_after_agregar_witness :
  exists st st',
    App.obtener_estadisticas w12 = (Ok st, w12)
    /\ App.obtener_estadisticas (agregar (sub0 "great!") w12)
       = (Ok st', agregar (sub0 "great!") w12)
    /\ total st' = S (total st).
Proof.
  destruct (obtener_estadisticas_after_agregar (sub0 "great!") w12
              eq_refl eq_refl)
    as (st & st' & fila & H1 & H2 & _ & H4 & _).
  exists st, st'. repeat split; assumption.
Defined.

(** The mean of the store with two rows. *)
Lemma obtener_estadisticas_mean_in_range_witness :
  exists st,
    App.obtener_estadisticas w12 = (Ok st, w12)
    /\ (-1 <= promedio_compound st)%Q /\ (promedio_compound st <= 1)%Q.
Proof.
  eexists. split; [reflexivity |].
  apply (obtener_estadisticas_mean_in_range w12 _ eq_refl).
  repeat constructor; discriminate.
Defined.

(** A visitor submits, guesses a password, asks for a deletion and logs
    out: the two rows are still there. *)
Lemma serve_without_password_keeps_rows_witness :
  logged_in
    (fst (serve [(sv0, ReqSubmit (form_of "hola"));
                 (sv0, ReqLogin POST (Some "guess"));
                 (sv0, ReqDelete 1); (sv0, ReqLogout)] no_session w12))
  = false
  /\ exists newer,
       table
         (snd (serve [(sv0, ReqSubmit (form_of "hola"));
                      (sv0, ReqLogin POST (Some "guess"));
                      (sv0, ReqDelete 1); (sv0, ReqLogout)] no_session w12))
       = table w12 ++ newer.
Proof.
  apply serve_without_password_keeps_rows; [reflexivity |].
  repeat constructor.
Defined.

(** The dashboard of the administrator does not write. *)
Lemma handle_read_only_witness :
  snd (handle sv0 ReqDashboard admin w12) = w12.
Proof.
  apply handle_read_only; [intros form; discriminate | intros id; discriminate].
Defined.

Lemma sort_desc_permutation : forall l,
  Permutation (DashboardSamples.sort_desc l) l.
Proof.
  assert (Hins : forall r l,
             Permutation (DashboardSamples.insert_desc r l) (r :: l)).
  { intros r. induction l as [| x t IH]; cbn; [reflexivity |].
    destruct (String.leb _ _); [reflexivity |].
    rewrite IH. apply perm_swap. }
  induction l as [| r l IH]; cbn; [constructor |].
  rewrite Hins. now constructor.
Defined.

(** The dashboard on a store of twelve comments, one a day, with the three
    labels: the figure is drawn, the ten latest are listed, and the two
    oldest, of the 1st and the 2nd of January, are left out. *)
Lemma admin_dashboard_lists_latest_witness :
  exists stats ultimos preview,
    admin_dashboard DashboardSamples.sv1 admin DashboardSamples.w_dash
    = (Ok (Dashboard (Some "iVBORw0KGgo") 12 stats ultimos preview),
       DashboardSamples.w_dash)
    /\ stats = [("Positivo", 6); ("Negativo", 4); ("Neutro", 2)]
    /\ map col_id ultimos = [12; 11; 10; 9; 8; 7; 6; 5; 4; 3]%Z
    /\ length preview = 12
    /\ (forall r, In r ultimos ->
        String.leb "2024-01-02 08:00:00" (col_fecha r) = true).
Proof.
  assert (Hsorted : StronglySorted
                      (fun a b => String.leb (col_fecha b) (col_fecha a) = true)
                      (sort_values_fecha_desc DashboardSamples.sv1
                         (table DashboardSamples.w_dash))).
  { vm_compute.
    repeat (apply SSorted_cons;
            [| repeat (apply Forall_cons; [reflexivity |]); apply Forall_nil]).
    apply SSorted_nil. }
  destruct (proj2 (admin_dashboard_lists_latest
                     DashboardSamples.sv1 admin DashboardSamples.w_dash
                     eq_refl eq_refl eq_refl (sort_desc_permutation _)
                     Hsorted)
              "iVBORw0KGgo" eq_refl)
    as (stats & ultimos & preview & H1 & H2 & H3 & H4 & H5 & H6).
  exists stats, ultimos, preview. split; [exact H1 |].
  assert (E := H1). vm_compute in E. injection E as Es Eu Ep.
  split; [now rewrite <- Es |].
  split; [now rewrite <- Eu |].
  split; [exact H4 |].
  intros r Hr.
  apply (H6 r (DashboardSamples.fila1 2 "2024-01-02 08:00:00" "Negativo"
                 (- (4 # 10))) Hr).
  - right. left. reflexivity.
  - rewrite <- Eu. cbn. intuition discriminate.
Defined.

(** A comment submitted and then exported. *)
Lemma export_after_submit_witness :
  exists name df fila,
    fst (fst (handle sv0 (ReqExport "csv") admin
                     (snd (handle sv0 (ReqSubmit (form_of " the bus was late "))
                                  admin w12))))
    = Ok (Download "text/csv" name df)
    /\ filas df = table w12 ++ [fila]
    /\ col_comentario fila = PStr "the bus was late".
Proof.
  apply (export_after_submit sv0 admin (form_of " the bus was late ") w12);
    [discriminate | vm_compute; lia | reflexivity | reflexivity].
Defined.

(** The administrator logs in and deletes the row 2. *)
Lemma login_then_delete_witness :
  map col_id
      (table (snd (serve [(sv0, ReqLogin POST (Some ADMIN_PASSWORD));
                          (sv0, ReqDelete 2)] no_session w12)))
  = [1]%Z.
Proof.
  rewrite (proj2 (login_then_delete sv0 sv0 2 no_session w12
                    eq_refl eq_refl)).
  reflexivity.
Defined.

(** Both copies of the normalizer leave "good bus" alone. *)
Lemma traducir_es_en_copies_agree_witness :
  Analysis.traducir_es_en translate_up (PStr "good bus") w0
  = App.traducir_es_en translate_up (PStr "good bus") w0.
Proof.
  apply (proj2 (traducir_es_en_copies_agree translate_up
                  (PStr "good bus") w0) "good bus" eq_refl).
  left. vm_compute. lia.
Defined.

(** "el bus es bueno" goes to the translator. *)
Lemma traducir_es_en_translates_spanish_witness :
  translated (snd (App.traducir_es_en translate_up
                     (PStr "el bus es bueno") w0))
  = ["el bus es bueno"%string].
Proof.
  apply (proj1 (traducir_es_en_translates_spanish translate_up
                  "el bus es bueno" w0 "el"
                  ltac:(vm_compute; lia) ltac:(vm_compute; tauto)
                  ltac:(vm_compute; tauto))).
Defined.

(** Cleaning a text that is not in clean form, twice. *)
Lemma limpiar_texto_idempotent_witness :
  Analysis.limpiar_texto (PStr (Analysis.limpiar_texto (PStr "  Hola,  MUNDO ")))
  = Analysis.limpiar_texto (PStr "  Hola,  MUNDO ")
  /\ Analysis.limpiar_texto (PInt 3) = ""%string.
Proof.
  split.
  - apply (proj1 (proj2 (limpiar_texto_idempotent (PStr "  Hola,  MUNDO ")))).
  - apply (proj1 (proj2 (proj2 (limpiar_texto_idempotent (PInt 3))))).
    reflexivity.
Defined.

End MoreRuns.
